(** * ParagraphImage: the paragraph-with-image block tool of src/index.js

    A shallow embedding of the [ParagraphImage] class: its constructor, the
    upload callbacks, the loader timers, [render], [save], [validate] and the
    key-up handler, over a small model of the JavaScript values, objects and
    DOM elements the class touches. *)

From Stdlib Require Import ZArith NArith Ascii DecimalString.
From stdpp Require Import gmap strings list fin_maps.

Local Open Scope string_scope.

(** ** JavaScript strings

    A JavaScript string is a sequence of 16-bit code units.  All the
    characters [String.prototype.trim] removes lie in the Basic Multilingual
    Plane, so trimming is a function of the code units alone. *)

Abbreviation code_unit := N (only parsing).
Abbreviation jsstring := (list N) (only parsing).

(** An ASCII literal of the source, as code units. *)
Fixpoint lit (s : string) : jsstring :=
  match s with
  | EmptyString => []
  | String a r => N_of_ascii a :: lit r
  end.
Arguments lit : simpl never.

Module JsString.

(** ECMAScript [WhiteSpace] and [LineTerminator] code points: TAB, LF, VT,
    FF, CR, SP, NBSP, U+1680, U+2000..U+200A, LS, PS, U+202F, U+205F,
    U+3000 and the byte order mark U+FEFF. *)
Definition is_whitespace (c : code_unit) : bool :=
  ((9 <=? c) && (c <=? 13)
   || (c =? 32) || (c =? 160) || (c =? 5760)
   || (8192 <=? c) && (c <=? 8202)
   || (c =? 8232) || (c =? 8233) || (c =? 8239) || (c =? 8287)
   || (c =? 12288) || (c =? 65279))%N.

Fixpoint trimStart (s : jsstring) : jsstring :=
  match s with
  | [] => []
  | c :: r => if is_whitespace c then trimStart r else s
  end.

Definition trimEnd (s : jsstring) : jsstring := rev (trimStart (rev s)).

(** [String.prototype.trim] *)
Definition trim (s : jsstring) : jsstring := trimEnd (trimStart s).

(** [s === ''] *)
Definition is_empty (s : jsstring) : bool :=
  match s with [] => true | _ :: _ => false end.

(** A string made of white space only (the empty string included). *)
Definition blank (s : jsstring) : bool := forallb is_whitespace s.

End JsString.

(** ** Values, objects and the heap

    Objects are mutable and shared by reference: [this.data] is the very
    object the host passed to the constructor, and [this.data.image] is the
    very [file] object of the upload response.  The heap maps a location to
    the own properties of the object that lives there. *)

Abbreviation loc := positive (only parsing).

(** Numbers are restricted to the safe integers, the integers of absolute
    value at most [Number.MAX_SAFE_INTEGER] = 2^53 - 1: every one of them is
    a double, and [ToString] prints it in plain decimal (the exponent form
    only starts at 1e21).  The wire format only uses [0] and [1]. *)
Definition MAX_SAFE_INTEGER : Z := 9007199254740991.

Record number := {
  number_value : Z;
  number_safe : (Z.abs number_value <=? MAX_SAFE_INTEGER)%Z = true
}.

Inductive value :=
| VUndefined
| VNull
| VBool (b : bool)
| VNum (n : number)
| VStr (s : jsstring)
| VRef (l : loc).

Abbreviation object := (gmap string value) (only parsing).
Abbreviation heap := (gmap positive (gmap string value)) (only parsing).

(** The exceptions the class can meet: a [TypeError] of the language, and
    the two [DOMException]s of [DOMTokenList.add]. *)
Inductive error :=
| TypeError (msg : string)
| SyntaxError (msg : string)
| InvalidCharacterError (msg : string).

Inductive result (A : Type) :=
| Ok (a : A)
| Throw (e : error).
Arguments Ok {A} a.
Arguments Throw {A} e.

Definition is_ok {A} (r : result A) : bool :=
  match r with Ok _ => true | Throw _ => false end.

Module Js.

(** The number literals [0] and [1]. *)
Definition zero : number := {| number_value := 0; number_safe := eq_refl |}.
Definition one : number := {| number_value := 1; number_safe := eq_refl |}.

(** ToBoolean *)
Definition truthy (v : value) : bool :=
  match v with
  | VUndefined | VNull => false
  | VBool b => b
  | VNum n => negb (number_value n =? 0)%Z
  | VStr s => negb (JsString.is_empty s)
  | VRef _ => true
  end.

(** [a || b], with [b] already evaluated (used where [b] is a literal). *)
Definition or (a b : value) : value := if truthy a then a else b.

(** ToString, as a template literal or a DOM string setter applies it.
    Objects are plain objects, printed as [[object Object]]; a safe integer
    is printed in decimal. *)
Definition to_string (v : value) : jsstring :=
  match v with
  | VUndefined => lit "undefined"
  | VNull => lit "null"
  | VBool true => lit "true"
  | VBool false => lit "false"
  | VNum n => lit (NilZero.string_of_int (Z.to_int (number_value n)))
  | VStr s => s
  | VRef _ => lit "[object Object]"
  end.

(** [objectAt h l]: the own properties of the object at [l]. *)
Definition objectAt (h : heap) (l : loc) : object := default ∅ (h !! l).

(** [v.k] for one of the property names the class reads.  Reading a
    property of [undefined] or [null] throws; the primitive wrappers have
    none of these names. *)
Definition get_prop (h : heap) (v : value) (k : string) : result value :=
  match v with
  | VUndefined => Throw (TypeError "Cannot read properties of undefined")
  | VNull => Throw (TypeError "Cannot read properties of null")
  | VRef l => Ok (default VUndefined (objectAt h l !! k))
  | VBool _ | VNum _ | VStr _ => Ok VUndefined
  end.

(** [v.k = x] in strict mode (class bodies are strict): only an object
    can be written to. *)
Definition set_prop (h : heap) (v : value) (k : string) (x : value)
  : result heap :=
  match v with
  | VRef l => Ok (<[l := <[k := x]> (objectAt h l)]> h)
  | VUndefined => Throw (TypeError "Cannot set properties of undefined")
  | VNull => Throw (TypeError "Cannot set properties of null")
  | VBool _ | VNum _ | VStr _ =>
      Throw (TypeError "Cannot create property on a primitive")
  end.

(** An object literal [{ ... }]: a fresh location. *)
Definition alloc (h : heap) (o : object) : loc * heap :=
  let l := fresh (dom h) in (l, <[l := o]> h).

End Js.

(** ** DOM elements

    An element is modelled by what the class reads or writes of it: its
    class list, its inline [style] attribute (the class only ever assigns
    [style.background] and removes the whole attribute), its editable
    content and its listeners. *)

(** The three values the class assigns to [style.background]. *)
Inductive background :=
| BgNone                      (* 'none', line 149 *)
| BgImage (url : jsstring)    (* `url('${url}') center center / contain no-repeat`, line 319 *)
| BgPlaceholder.              (* `#f6f6f9 url('data:image/svg+xml,${PlaceholderImage}') center center no-repeat`, line 326 *)

(** The text of the assigned value; [svg] is the imported placeholder asset. *)
Definition css_text (svg : jsstring) (b : background) : jsstring :=
  match b with
  | BgNone => lit "none"
  | BgImage url => lit "url('" ++ url ++ lit "') center center / contain no-repeat"
  | BgPlaceholder =>
      lit "#f6f6f9 url('data:image/svg+xml," ++ svg ++ lit "') center center no-repeat"
  end.

(** The class writes the image url between single quotes and does not
    escape it (line 319).  The browser keeps an assigned value only when it
    parses as a background; a single quote, a backslash or a line break
    (LF, FF, CR) in the url breaks the quoted string, and the assignment is
    then ignored.  The other two values are constants of the class and
    parse. *)
Definition breaks_url (c : code_unit) : bool :=
  ((c =? 39) || (c =? 92) || (c =? 10) || (c =? 12) || (c =? 13))%N.

Definition url_parses (url : jsstring) : bool :=
  forallb (λ c, negb (breaks_url c)) url.

Definition parses (b : background) : bool :=
  match b with
  | BgImage url => url_parses url
  | BgNone | BgPlaceholder => true
  end.

(** ** Class tokens

    [DOMTokenList.add] throws a [SyntaxError] on the empty string and an
    [InvalidCharacterError] on a token that contains ASCII white space
    (TAB, LF, FF, CR, SPACE). *)
Definition is_ascii_whitespace (a : ascii) : bool :=
  let n := N_of_ascii a in
  ((n =? 9) || (n =? 10) || (n =? 12) || (n =? 13) || (n =? 32))%N.

Fixpoint has_whitespace (c : string) : bool :=
  match c with
  | EmptyString => false
  | String a r => is_ascii_whitespace a || has_whitespace r
  end.

Definition valid_token (c : string) : bool :=
  match c with
  | EmptyString => false
  | String _ _ => negb (has_whitespace c)
  end.

(** Child nodes of an editable region. *)
#[warnings="-register-all"]
Inductive markup :=
| MText (s : jsstring)
| MElem (tag : string) (attrs : list (string * jsstring)) (kids : list markup).

(** A listener is either the method [this.onKeyUp] handed over unbound
    (line 243) or one of the two arrow functions of [render] (lines 281 and
    291), which keep the instance as their [this]. *)
Inductive handler :=
| Method_onKeyUp
| Arrow_deleteImage
| Arrow_selectFile.

Record element := {
  tagName : string;
  classList : list string;
  style : option background;
  contentEditable : bool;
  placeholder : option jsstring;
  childNodes : list markup;
  listeners : list (string * handler)
}.

Module Dom.

(** [document.createElement(tag)] for a valid tag name; the class creates
    [div] and [button] elements. *)
Definition createElement (tag : string) : element :=
  {| tagName := tag; classList := []; style := None; contentEditable := false;
     placeholder := None; childNodes := []; listeners := [] |}.

(** What [DOMTokenList.add] checks of each token before it adds any. *)
Definition check_token (c : string) : result unit :=
  match c with
  | EmptyString => Throw (SyntaxError "The token provided must not be empty")
  | String _ _ =>
      if has_whitespace c
      then Throw (InvalidCharacterError "The token provided contains white space")
      else Ok ()
  end.

Fixpoint check_tokens (l : list string) : result unit :=
  match l with
  | [] => Ok ()
  | c :: r => match check_token c with
              | Ok _ => check_tokens r
              | Throw e => Throw e
              end
  end.

(** [el.classList.add(c)] for a valid token [c]: the token list has no
    duplicates. *)
Definition classList_add (c : string) (el : element) : element :=
  {| tagName := tagName el;
     classList := if bool_decide (c ∈ classList el) then classList el
                  else classList el ++ [c];
     style := style el; contentEditable := contentEditable el;
     placeholder := placeholder el; childNodes := childNodes el;
     listeners := listeners el |}.

(** [el.classList.add(...l)] *)
Definition classList_add_all (l : list string) (el : element) : result element :=
  match check_tokens l with
  | Ok _ => Ok (foldl (λ el c, classList_add c el) el l)
  | Throw e => Throw e
  end.

(** [el.classList.remove(c)] for a valid token [c] *)
Definition classList_remove (c : string) (el : element) : element :=
  {| tagName := tagName el;
     classList := filter (λ x, x ≠ c) (classList el);
     style := style el; contentEditable := contentEditable el;
     placeholder := placeholder el; childNodes := childNodes el;
     listeners := listeners el |}.

Definition set_style (b : option background) (el : element) : element :=
  {| tagName := tagName el; classList := classList el;
     style := b; contentEditable := contentEditable el;
     placeholder := placeholder el; childNodes := childNodes el;
     listeners := listeners el |}.

(** [el.style.background = b]: a value that does not parse is ignored and
    the element keeps the style it had. *)
Definition set_background (b : background) (el : element) : element :=
  if parses b then set_style (Some b) el else el.

(** [el.removeAttribute('style')] *)
Definition removeAttribute_style : element → element := set_style None.

Definition set_contentEditable (b : bool) (el : element) : element :=
  {| tagName := tagName el; classList := classList el;
     style := style el; contentEditable := b;
     placeholder := placeholder el; childNodes := childNodes el;
     listeners := listeners el |}.

(** [el.dataset.placeholder = s] *)
Definition set_placeholder (s : jsstring) (el : element) : element :=
  {| tagName := tagName el; classList := classList el;
     style := style el; contentEditable := contentEditable el;
     placeholder := Some s; childNodes := childNodes el;
     listeners := listeners el |}.

Definition set_childNodes (k : list markup) (el : element) : element :=
  {| tagName := tagName el; classList := classList el;
     style := style el; contentEditable := contentEditable el;
     placeholder := placeholder el; childNodes := k;
     listeners := listeners el |}.

(** [el.addEventListener(type, h)] *)
Definition addEventListener (type : string) (h : handler) (el : element)
  : element :=
  {| tagName := tagName el; classList := classList el;
     style := style el; contentEditable := contentEditable el;
     placeholder := placeholder el; childNodes := childNodes el;
     listeners := listeners el ++ [(type, h)] |}.

(** The [textContent] getter: the text of all descendants, in order. *)
Fixpoint text_of (m : markup) : jsstring :=
  match m with
  | MText s => s
  | MElem _ _ kids => concat (map text_of kids)
  end.

Definition textContent (el : element) : jsstring :=
  concat (map text_of (childNodes el)).

(** The [textContent] setter: one text node, or none for the empty string. *)
Definition set_textContent (s : jsstring) : element → element :=
  set_childNodes (if JsString.is_empty s then [] else [MText s]).

(** The [innerHTML] getter, after the HTML fragment serialisation
    algorithm: text and attribute values are escaped, void elements have
    no end tag. *)
Definition escape (in_attr : bool) (s : jsstring) : jsstring :=
  concat (map (λ c : N,
    if (c =? 38)%N then lit "&amp;"
    else if (c =? 160)%N then lit "&nbsp;"
    else if (c =? 60)%N then lit "&lt;"
    else if (c =? 62)%N then lit "&gt;"
    else if in_attr && (c =? 34)%N then lit "&quot;"
    else [c]) s).

Definition is_void (tag : string) : bool :=
  bool_decide (tag ∈ ["area"; "base"; "br"; "col"; "embed"; "hr"; "img";
                      "input"; "link"; "meta"; "source"; "track"; "wbr"]).

Definition serialize_attr (a : string * jsstring) : jsstring :=
  lit " " ++ lit a.1 ++ [61; 34]%N ++ escape true a.2 ++ [34]%N.

Fixpoint serialize (m : markup) : jsstring :=
  match m with
  | MText s => escape false s
  | MElem tag attrs kids =>
      lit "<" ++ lit tag ++ concat (map serialize_attr attrs) ++ lit ">"
      ++ (if is_void tag then []
          else concat (map serialize kids) ++ lit "</" ++ lit tag ++ lit ">")
  end.

Definition innerHTML (el : element) : jsstring :=
  concat (map serialize (childNodes el)).

End Dom.

(** ** The instance and its environment *)

(** A class name of the host, a valid token. *)
Record token := {
  token_string : string;
  token_valid : valid_token token_string = true
}.

(** [api.styles] of the host: the class names of its style sheet
    (['cdx-block'], ['cdx-input'] and ['cdx-loader'] in Editor.js). *)
Record API := {
  styles_block : token;
  styles_input : token;
  styles_loader : token
}.

(** [this.nodes] *)
Record Nodes := {
  nodes_wrapper : option element;
  nodes_text : option element;
  nodes_image : option element;
  nodes_title : option element;
  nodes_description : option element
}.

(** [this.config] *)
Record Config := {
  endpoint : value;
  field : value;
  types : value;
  additionalRequestData : value;
  additionalRequestHeaders : value;
  textPlaceholder : value;
  titlePlaceholder : value;
  descriptionPlaceholder : value
}.

(** The argument of [api.notifier.show]. *)
Record notification := {
  message : jsstring;
  notification_style : string
}.

(** The two callbacks handed to [setTimeout] (lines 129 and 139). *)
Inductive timer_callback :=
| ShowFullImageCb
| StopLoadingCb.

Record timer := {
  due : N;
  callback : timer_callback
}.

(** Timeout when loader should be removed *)
Definition LOADER_DELAY : N := 500.

Record state := {
  (* the instance *)
  api : API;
  nodes : Nodes;
  config : Config;
  data : value;
  (* elements [render] creates and hangs under [nodes.image] *)
  deleteImageButton : option element;
  (* the environment *)
  store : heap;
  notifier : list notification;
  tooltips : list (string * jsstring);
  timers : list timer;
  now : N;
  prompts : nat;           (* calls of [uploader.uploadSelectedFile] *)
  requests : nat;          (* upload requests sent *)
  uncaught : list error    (* exceptions that escaped a listener or a timer *)
}.

Definition set_nodes (f : Nodes → Nodes) (s : state) : state :=
  {| api := api s; nodes := f (nodes s); config := config s; data := data s;
     deleteImageButton := deleteImageButton s; store := store s;
     notifier := notifier s; tooltips := tooltips s; timers := timers s;
     now := now s; prompts := prompts s; requests := requests s;
     uncaught := uncaught s |}.

Definition set_deleteImageButton (b : option element) (s : state) : state :=
  {| api := api s; nodes := nodes s; config := config s; data := data s;
     deleteImageButton := b; store := store s;
     notifier := notifier s; tooltips := tooltips s; timers := timers s;
     now := now s; prompts := prompts s; requests := requests s;
     uncaught := uncaught s |}.

Definition set_store (h : heap) (s : state) : state :=
  {| api := api s; nodes := nodes s; config := config s; data := data s;
     deleteImageButton := deleteImageButton s; store := h;
     notifier := notifier s; tooltips := tooltips s; timers := timers s;
     now := now s; prompts := prompts s; requests := requests s;
     uncaught := uncaught s |}.

Definition set_notifier (l : list notification) (s : state) : state :=
  {| api := api s; nodes := nodes s; config := config s; data := data s;
     deleteImageButton := deleteImageButton s; store := store s;
     notifier := l; tooltips := tooltips s; timers := timers s;
     now := now s; prompts := prompts s; requests := requests s;
     uncaught := uncaught s |}.

Definition set_tooltips (l : list (string * jsstring)) (s : state) : state :=
  {| api := api s; nodes := nodes s; config := config s; data := data s;
     deleteImageButton := deleteImageButton s; store := store s;
     notifier := notifier s; tooltips := l; timers := timers s;
     now := now s; prompts := prompts s; requests := requests s;
     uncaught := uncaught s |}.

Definition set_timers (l : list timer) (s : state) : state :=
  {| api := api s; nodes := nodes s; config := config s; data := data s;
     deleteImageButton := deleteImageButton s; store := store s;
     notifier := notifier s; tooltips := tooltips s; timers := l;
     now := now s; prompts := prompts s; requests := requests s;
     uncaught := uncaught s |}.

Definition set_now (t : N) (s : state) : state :=
  {| api := api s; nodes := nodes s; config := config s; data := data s;
     deleteImageButton := deleteImageButton s; store := store s;
     notifier := notifier s; tooltips := tooltips s; timers := timers s;
     now := t; prompts := prompts s; requests := requests s;
     uncaught := uncaught s |}.

Definition set_prompts (n : nat) (s : state) : state :=
  {| api := api s; nodes := nodes s; config := config s; data := data s;
     deleteImageButton := deleteImageButton s; store := store s;
     notifier := notifier s; tooltips := tooltips s; timers := timers s;
     now := now s; prompts := n; requests := requests s;
     uncaught := uncaught s |}.

Definition set_requests (n : nat) (s : state) : state :=
  {| api := api s; nodes := nodes s; config := config s; data := data s;
     deleteImageButton := deleteImageButton s; store := store s;
     notifier := notifier s; tooltips := tooltips s; timers := timers s;
     now := now s; prompts := prompts s; requests := n;
     uncaught := uncaught s |}.

Definition set_uncaught (l : list error) (s : state) : state :=
  {| api := api s; nodes := nodes s; config := config s; data := data s;
     deleteImageButton := deleteImageButton s; store := store s;
     notifier := notifier s; tooltips := tooltips s; timers := timers s;
     now := now s; prompts := prompts s; requests := requests s;
     uncaught := l |}.

Definition with_wrapper (e : option element) (n : Nodes) : Nodes :=
  {| nodes_wrapper := e; nodes_text := nodes_text n; nodes_image := nodes_image n;
     nodes_title := nodes_title n; nodes_description := nodes_description n |}.
Definition with_text (e : option element) (n : Nodes) : Nodes :=
  {| nodes_wrapper := nodes_wrapper n; nodes_text := e; nodes_image := nodes_image n;
     nodes_title := nodes_title n; nodes_description := nodes_description n |}.
Definition with_image (e : option element) (n : Nodes) : Nodes :=
  {| nodes_wrapper := nodes_wrapper n; nodes_text := nodes_text n; nodes_image := e;
     nodes_title := nodes_title n; nodes_description := nodes_description n |}.
Definition with_title (e : option element) (n : Nodes) : Nodes :=
  {| nodes_wrapper := nodes_wrapper n; nodes_text := nodes_text n; nodes_image := nodes_image n;
     nodes_title := e; nodes_description := nodes_description n |}.
Definition with_description (e : option element) (n : Nodes) : Nodes :=
  {| nodes_wrapper := nodes_wrapper n; nodes_text := nodes_text n; nodes_image := nodes_image n;
     nodes_title := nodes_title n; nodes_description := e |}.

(** ** A state and exception monad for the methods

    A method runs on the state and either returns or throws; what it wrote
    before throwing stays written. *)

Definition M (A : Type) : Type := state → result A * state.

#[global] Instance M_ret : MRet M := λ A a s, (Ok a, s).
#[global] Instance M_bind : MBind M := λ A B f m s,
  match m s with
  | (Ok a, s') => f a s'
  | (Throw e, s') => (Throw e, s')
  end.

Definition throw {A} (e : error) : M A := λ s, (Throw e, s).
Definition gets {A} (f : state → A) : M A := λ s, (Ok (f s), s).
Definition modify (f : state → state) : M unit := λ s, (Ok (), f s).
Definition lift {A} (f : state → result A) : M A := λ s, (f s, s).

(** Dereferencing one of [this.nodes.*], [null] before [render]. *)
Definition deref {A} (o : option A) : M A :=
  match o with
  | Some a => mret a
  | None => throw (TypeError "Cannot read properties of null")
  end.

(** [v.k] and [v.k = x] on the current heap. *)
Definition getp (v : value) (k : string) : M value :=
  lift (λ s, Js.get_prop (store s) v k).
Definition setp (v : value) (k : string) (x : value) : M unit :=
  λ s, match Js.set_prop (store s) v k x with
       | Ok h => (Ok (), set_store h s)
       | Throw e => (Throw e, s)
       end.

(** [setTimeout(cb, delay)] *)
Definition setTimeout (cb : timer_callback) (delay : N) : M unit :=
  modify (λ s, set_timers (timers s ++ [{| due := now s + delay; callback := cb |}]) s).

#[global] Instance result_ret : MRet result := λ A a, Ok a.
#[global] Instance result_bind : MBind result := λ A B f r,
  match r with
  | Ok a => f a
  | Throw e => Throw e
  end.

(** ** The class *)

(** The [CSS] getter (lines 169-187). *)
Module CSS.
Definition baseClass (a : API) : string := token_string (styles_block a).
Definition input (a : API) : string := token_string (styles_input a).
Definition loader (a : API) : string := token_string (styles_loader a).
Definition wrapper : string := "cdx-paragraph-image".
Definition card : string := "cdx-paragraph-image__card".
Definition fields : string := "cdx-paragraph-image__fields".
Definition image : string := "cdx-paragraph-image__image".
Definition title : string := "cdx-paragraph-image__title".
Definition text : string := "cdx-paragraph-image__text".
Definition description : string := "cdx-paragraph-image__description".
Definition deleteImageButton : string := "cdx-paragraph-image__delete-img-btn".
End CSS.

(** *** The constructor (lines 52-87) *)

(** [config.k || d] for a literal default [d]. *)
Definition config_or (h : heap) (config : value) (k : string) (d : value)
  : result value :=
  v ← Js.get_prop h config k; mret (Js.or v d).

(** [config.k || {}]: the object literal is only allocated when needed. *)
Definition config_or_object (h : heap) (config : value) (k : string)
  : result (value * heap) :=
  v ← Js.get_prop h config k;
  if Js.truthy v then mret (v, h)
  else let '(l, h') := Js.alloc h ∅ in mret (VRef l, h').

Definition no_nodes : Nodes :=
  {| nodes_wrapper := None; nodes_text := None; nodes_image := None;
     nodes_title := None; nodes_description := None |}.

(** [new ParagraphImage({ data, config, api })] on the heap [h]. *)
Definition constructor (h : heap) (data config : value) (api : API)
  : result state :=
  endpoint ← config_or h config "endpoint" (VStr (lit ""));
  field ← config_or h config "field" (VStr (lit "image"));
  types ← config_or h config "types" (VStr (lit "image/*"));
  '(additionalRequestData, h1) ← config_or_object h config "additionalRequestData";
  '(additionalRequestHeaders, h2) ← config_or_object h1 config "additionalRequestHeaders";
  textPlaceholder ← config_or h2 config "textPlaceholder" (VStr (lit "Text"));
  titlePlaceholder ← config_or h2 config "titlePlaceholder" (VStr (lit "Title"));
  descriptionPlaceholder ←
    config_or h2 config "descriptionPlaceholder" (VStr (lit "Description"));
  mret {| api := api;
          nodes := no_nodes;
          config := {| endpoint := endpoint; field := field; types := types;
                       additionalRequestData := additionalRequestData;
                       additionalRequestHeaders := additionalRequestHeaders;
                       textPlaceholder := textPlaceholder;
                       titlePlaceholder := titlePlaceholder;
                       descriptionPlaceholder := descriptionPlaceholder |};
          data := data;
          deleteImageButton := None;
          store := h2; notifier := []; tooltips := []; timers := [];
          now := 0%N; prompts := 0; requests := 0; uncaught := [] |}.

(** *** The image region *)

(** A write through [this.nodes.image]. *)
Definition update_image (f : element → element) : M unit :=
  n ← gets nodes;
  el ← deref (nodes_image n);
  modify (set_nodes (with_image (Some (f el)))).

(** [setImage(url)] (lines 318-320) *)
Definition setImage (url : value) : M unit :=
  update_image (Dom.set_background (BgImage (Js.to_string url))).

(** [setImagePlaceholder()] (lines 325-327) *)
Definition setImagePlaceholder : M unit :=
  update_image (Dom.set_background BgPlaceholder).

(** [addLoader()] (lines 148-151) *)
Definition addLoader : M unit :=
  update_image (Dom.set_background BgNone);;
  a ← gets api;
  update_image (Dom.classList_add (CSS.loader a)).

(** [showFullImage()] (lines 128-133) *)
Definition showFullImage : M unit := setTimeout ShowFullImageCb LOADER_DELAY.

(** [stopLoading()] (lines 138-143) *)
Definition stopLoading : M unit := setTimeout StopLoadingCb LOADER_DELAY.

(** The bodies of the two timer callbacks. *)
Definition run_callback (cb : timer_callback) : M unit :=
  match cb with
  | ShowFullImageCb =>
      a ← gets api;
      update_image (Dom.classList_remove (CSS.loader a));;
      d ← gets data;
      image ← getp d "image";
      url ← getp image "url";
      setImage url
  | StopLoadingCb =>
      a ← gets api;
      update_image (Dom.classList_remove (CSS.loader a));;
      update_image Dom.removeAttribute_style
  end.

(** [onUpload(response)] (lines 115-123) *)
Definition onUpload (response : value) : M unit :=
  body ← getp response "body";
  success ← getp body "success";
  file ← getp body "file";
  if Js.truthy success && Js.truthy file then
    url ← getp file "url";
    if Js.truthy url then
      d ← gets data;
      setp d "image" file;;
      showFullImage
    else mret ()
  else mret ().

(** [uploadingFailed(errorMessage)] (lines 157-164) *)
Definition uploadingFailed (errorMessage : jsstring) : M unit :=
  stopLoading;;
  modify (λ s, set_notifier
    (notifier s ++ [{| message := errorMessage; notification_style := "error" |}]) s).

(** *** [save] and [validate] *)

(** [s || ''] on a string. *)
Definition or_empty (s : jsstring) : jsstring :=
  if JsString.is_empty s then lit "" else s.

(** [Object.assign(target, { text, title, description })] *)
Definition Object_assign (target : value) (text title description : jsstring)
  : M unit :=
  match target with
  | VUndefined | VNull =>
      throw (TypeError "Cannot convert undefined or null to object")
  | VRef _ =>
      setp target "text" (VStr text);;
      setp target "title" (VStr title);;
      setp target "description" (VStr description)
  | VBool _ | VNum _ | VStr _ => mret ()   (* written to a dropped wrapper *)
  end.

(** [save(toolsContent)] (lines 194-202); the argument is not used. *)
Definition save : M value :=
  n ← gets nodes;
  t ← deref (nodes_text n);
  let text := JsString.trim (or_empty (Dom.innerHTML t)) in
  ti ← deref (nodes_title n);
  let title := JsString.trim (or_empty (Dom.textContent ti)) in
  de ← deref (nodes_description n);
  let description := JsString.trim (or_empty (Dom.textContent de)) in
  d ← gets data;
  Object_assign d text title description;;
  gets data.

(** [validate(savedData)] (lines 355-357): [savedData.text.trim() !== '']. *)
Definition validate (h : heap) (savedData : value) : result bool :=
  text ← Js.get_prop h savedData "text";
  match text with
  | VStr s => mret (negb (JsString.is_empty (JsString.trim s)))
  | VUndefined | VNull =>
      Throw (TypeError "Cannot read properties of undefined (reading 'trim')")
  | VBool _ | VNum _ | VRef _ =>
      Throw (TypeError "savedData.text.trim is not a function")
  end.

(** *** The key-up handler *)

Record Event := {
  type : string;
  code : string    (* [KeyboardEvent.code]; not read for other events *)
}.

(** What [this] is when a function runs: the instance, or (for a function
    passed unbound to [addEventListener]) the element the listener was
    registered on. *)
Inductive receiver :=
| ThisInstance
| ThisElement (el : element).

(** [this.nodes]: an element has no [nodes] property. *)
Definition this_nodes (this : receiver) : M (option Nodes) :=
  match this with
  | ThisInstance => n ← gets nodes; mret (Some n)
  | ThisElement _ => mret None
  end.

(** [onKeyUp(e)] (lines 335-345) *)
Definition onKeyUp (this : receiver) (e : Event) : M unit :=
  if bool_decide (code e ≠ "Backspace") && bool_decide (code e ≠ "Delete") then
    mret ()
  else
    ns ← this_nodes this;
    match ns with
    | None => throw (TypeError "Cannot read properties of undefined (reading 'text')")
    | Some n =>
        t ← deref (nodes_text n);
        if JsString.is_empty (Dom.textContent t) then
          modify (set_nodes (with_text (Some (Dom.set_childNodes [] t))))
        else mret ()
    end.

(** *** [render] *)

Inductive classNames :=
| ClassArray (l : list string)
| ClassName (c : string).

(** The attributes [render] passes to [make]. *)
Inductive attribute :=
| Attr_contentEditable (b : bool)
| Attr_innerHTML (v : value).

Section Render.

(** The browser's HTML fragment parser, behind the [innerHTML] setter. *)
Variable parse_fragment : jsstring → list markup.

(** [el.innerHTML = v]: the empty string leaves no child. *)
Definition set_innerHTML (v : value) : element → element :=
  let s := Js.to_string v in
  Dom.set_childNodes (if JsString.is_empty s then [] else parse_fragment s).

Definition set_attribute (a : attribute) : element → element :=
  match a with
  | Attr_contentEditable b => Dom.set_contentEditable b
  | Attr_innerHTML v => set_innerHTML v
  end.

(** [make(tagName, classNames, attributes)] (lines 366-380).  An array of
    class names is spread into one [classList.add]; a single name is added
    when it is truthy, that is not the empty string. *)
Definition make (tagName : string) (cn : classNames) (attributes : list attribute)
  : result element :=
  el ← match cn with
       | ClassArray l => Dom.classList_add_all l (Dom.createElement tagName)
       | ClassName c =>
           if bool_decide (c = "") then Ok (Dom.createElement tagName)
           else Dom.classList_add_all [c] (Dom.createElement tagName)
       end;
  mret (foldl (λ el a, set_attribute a el) el attributes).

(** [this.make(...)] inside a method. *)
Definition this_make (tagName : string) (cn : classNames)
  (attributes : list attribute) : M element :=
  lift (λ _, make tagName cn attributes).

(** [render()] (lines 231-313).  The card and the fields wrapper carry no
    state of their own; where they hang in the tree is [parentNode] below. *)
Definition render : M element :=
  d ← gets data;
  text ← getp d "text";
  image ← getp d "image";
  title ← getp d "title";
  description ← getp d "description";
  a ← gets api;
  c ← gets config;
  w ← this_make "div" (ClassArray [CSS.baseClass a; CSS.wrapper]) [];
  modify (set_nodes (with_wrapper (Some w)));;
  (* Text *)
  t ← this_make "div" (ClassArray [CSS.input a; CSS.text])
        [Attr_contentEditable true; Attr_innerHTML (Js.or text (VStr (lit "")))];
  modify (set_nodes (with_text
    (Some (Dom.addEventListener "keyup" Method_onKeyUp
      (Dom.set_placeholder (Js.to_string (textPlaceholder c)) t)))));;
  (* Title *)
  ti ← this_make "div" (ClassName CSS.title) [Attr_contentEditable true];
  (let el := Dom.set_placeholder (Js.to_string (titlePlaceholder c)) ti in
   modify (set_nodes (with_title
     (Some (if Js.truthy title then Dom.set_textContent (Js.to_string title) el
            else el)))));;
  (* Description *)
  de ← this_make "div" (ClassName CSS.description) [Attr_contentEditable true];
  (let el := Dom.set_placeholder (Js.to_string (descriptionPlaceholder c)) de in
   modify (set_nodes (with_description
     (Some (if Js.truthy description
            then Dom.set_textContent (Js.to_string description) el
            else el)))));;
  (* Image *)
  im ← this_make "div" (ClassName CSS.image) [];
  modify (set_nodes (with_image (Some im)));;
  (if Js.truthy image then
     url ← getp image "url";
     setImage url
   else setImagePlaceholder);;
  button ← this_make "button" (ClassName CSS.deleteImageButton) [];
  modify (λ s, set_tooltips (tooltips s ++ [(CSS.deleteImageButton, lit "Delete")]) s);;
  modify (set_deleteImageButton
    (Some (Dom.addEventListener "click" Arrow_deleteImage button)));;
  update_image (Dom.addEventListener "click" Arrow_selectFile);;
  this_make "div" (ClassName CSS.fields) [];;
  this_make "div" (ClassName CSS.card) [];;
  n ← gets nodes;
  deref (nodes_wrapper n).

End Render.

(** ** The uploader

    [src/uploader.js] is not among the sources at hand.  The class reaches
    it at three points: the click listener calls [uploadSelectedFile] with
    [addLoader] as the preview callback (lines 291-297), and the constructor
    hands it [onUpload] and [uploadingFailed] as its two completion
    callbacks (lines 82-86). *)

Module Uploader.

(** Modelled from the spec: [uploadSelectedFile] of the Uploader class
    (src/uploader.js, missing) opens the native file-selection surface;
    nothing is sent until a file is chosen. *)
Definition uploadSelectedFile : M unit :=
  modify (λ s, set_prompts (S (prompts s)) s).

(** Modelled from the spec: on file choice the Uploader (src/uploader.js,
    missing) immediately invokes the preview callback, here [addLoader],
    and sends the multipart request. *)
Definition fileChosen : M unit :=
  addLoader;;
  modify (λ s, set_requests (S (requests s)) s).

(** How an attempt ends: the Uploader calls one of the two callbacks it
    was given.  [onUpload] takes the response (an [UploadResponseFormat]
    body, [success] being 1 for successful uploading and 0 for failure,
    lines 33-41 and 113); [onError] takes an error message. *)
Inductive completion :=
| OnUpload (response : value)
| OnError (error : jsstring).

(** The wiring of lines 84-85. *)
Definition complete (c : completion) : M unit :=
  match c with
  | OnUpload response => onUpload response
  | OnError error => uploadingFailed error
  end.

End Uploader.

(** ** Events and timers *)

(** The elements of the rendered tree. *)
Inductive node :=
| Wrapper | Text | Card | Image | DeleteImageButton | Fields | Title | Description.

(** The [appendChild] calls of [render] (lines 289-310). *)
Definition parentNode (n : node) : option node :=
  match n with
  | Wrapper => None
  | Text | Card => Some Wrapper
  | Image | Fields => Some Card
  | DeleteImageButton => Some Image
  | Title | Description => Some Fields
  end.

Definition element_at (n : node) (s : state) : option element :=
  match n with
  | Wrapper => nodes_wrapper (nodes s)
  | Text => nodes_text (nodes s)
  | Image => nodes_image (nodes s)
  | Title => nodes_title (nodes s)
  | Description => nodes_description (nodes s)
  | DeleteImageButton => deleteImageButton s
  | Card | Fields => None
  end.

(** The target and its ancestors, innermost first. *)
Fixpoint propagation_path (fuel : nat) (n : node) : list node :=
  n :: match fuel, parentNode n with
       | S fuel', Some p => propagation_path fuel' p
       | _, _ => []
       end.

(** Running a listener.  An unbound method gets the element as [this]; an
    arrow function keeps the instance. *)
Definition invoke (h : handler) (current : element) (e : Event) : M unit :=
  match h with
  | Method_onKeyUp => onKeyUp (ThisElement current) e
  | Arrow_deleteImage =>            (* lines 281-287 *)
      setImagePlaceholder;;
      d ← gets data;
      setp d "image" VNull
  | Arrow_selectFile =>             (* lines 291-297 *)
      Uploader.uploadSelectedFile
  end.

(** The delete listener starts with [e.stopPropagation()] (line 283). *)
Definition stops_propagation (h : handler) : bool :=
  match h with
  | Arrow_deleteImage => true
  | Method_onKeyUp | Arrow_selectFile => false
  end.

(** An exception that escapes a listener or a timer callback is reported
    and goes no further. *)
Definition catch (m : M unit) (s : state) : state :=
  match m s with
  | (Ok _, s') => s'
  | (Throw e, s') => set_uncaught (uncaught s' ++ [e]) s'
  end.

Definition handlers_for (e : Event) (el : element) : list handler :=
  (filter (λ l, l.1 = type e) (listeners el)).*2.

Fixpoint propagate (path : list node) (e : Event) (s : state) : state :=
  match path with
  | [] => s
  | n :: rest =>
      match element_at n s with
      | None => propagate rest e s
      | Some el =>
          let hs := handlers_for e el in
          let s' := foldl (λ s h, catch (invoke h el e) s) s hs in
          if existsb stops_propagation hs then s' else propagate rest e s'
      end
  end.

(** The host dispatches [e] at [target]; the event bubbles. *)
Definition dispatchEvent (target : node) (e : Event) : state → state :=
  propagate (propagation_path 3 target) e.

Definition click (target : node) : state → state :=
  dispatchEvent target {| type := "click"; code := "" |}.

Definition keyup (target : node) (code : string) : state → state :=
  dispatchEvent target {| type := "keyup"; code := code |}.

(** The user (or the browser) replaces the content of an editable region. *)
Definition edit (n : node) (content : list markup) (s : state) : state :=
  match n with
  | Text => set_nodes (λ ns, with_text (Dom.set_childNodes content <$> nodes_text ns) ns) s
  | Title => set_nodes (λ ns, with_title (Dom.set_childNodes content <$> nodes_title ns) ns) s
  | Description =>
      set_nodes (λ ns, with_description
        (Dom.set_childNodes content <$> nodes_description ns) ns) s
  | _ => s
  end.

(** Timers fire in the order of their due time, and in the order they were
    set when due together. *)
Fixpoint insert_timer (t : timer) (l : list timer) : list timer :=
  match l with
  | [] => [t]
  | u :: r => if (due t <=? due u)%N then t :: l else u :: insert_timer t r
  end.

Definition sort_timers (l : list timer) : list timer := foldr insert_timer [] l.

Definition fire (s : state) (t : timer) : state := catch (run_callback (callback t)) s.

(** [dt] milliseconds pass: every timer due by then fires.  (No callback of
    this class sets a timer, so the due ones are known beforehand.) *)
Definition advance (dt : N) (s : state) : state :=
  let t := (now s + dt)%N in
  foldl fire
    (set_now t (set_timers (filter (λ x, ¬ (due x ≤ t)%N) (timers s)) s))
    (sort_timers (filter (λ x, (due x ≤ t)%N) (timers s))).

(** ** The visual state of the image region *)

Inductive VisualState := Empty | Loading | Loaded | Failed.

(** The visual state of the specification is not stored anywhere in the
    class: it is what the image region shows.  The loader class shows the
    loading indicator; without it the region shows the image when its
    background is one, and the placeholder or nothing otherwise.  [Failed]
    is the moment of the failure callback and has no appearance of its
    own. *)
Definition visualState (a : API) (el : element) : VisualState :=
  if bool_decide (CSS.loader a ∈ classList el) then Loading
  else match style el with
       | Some (BgImage _) => Loaded
       | Some BgPlaceholder | Some BgNone | None => Empty
       end.

(** ** A host and a few records, for the examples *)

Module Example.

Definition host : API :=
  {| styles_block := {| token_string := "cdx-block"; token_valid := eq_refl |};
     styles_input := {| token_string := "cdx-input"; token_valid := eq_refl |};
     styles_loader := {| token_string := "cdx-loader"; token_valid := eq_refl |} |}.

(** A stand-in for the browser's parser, good for text without markup:
    the text becomes one text node. *)
Definition plain_text (s : jsstring) : list markup := [MText s].

(** The saved record [{ text: ' a ', image: null }] at location 1. *)
Definition saved : heap :=
  {[ 1%positive := {[ "text" := VStr (lit " a "); "image" := VNull ]} ]}.

(** The saved data [{}] at location 1 and the configuration [{}] at
    location 2. *)
Definition empty_objects : heap := {[ 1%positive := ∅; 2%positive := ∅ ]}.

(** The configuration of the demonstration page, a partial one:
    [{ endpoint: 'http://localhost:8008/uploadFile', placeholder: '' }]. *)
Definition demo_page : heap :=
  {[ 1%positive := ∅;
     2%positive := {[ "endpoint" := VStr (lit "http://localhost:8008/uploadFile");
                      "placeholder" := VStr (lit "") ]} ]}.

(** The instance [new ParagraphImage({ data: {}, config: {}, api })]. *)
Definition constructed : state :=
  {| api := host;
     nodes := no_nodes;
     config := {| endpoint := VStr (lit "");
                  field := VStr (lit "image");
                  types := VStr (lit "image/*");
                  additionalRequestData := VRef 3;
                  additionalRequestHeaders := VRef 4;
                  textPlaceholder := VStr (lit "Text");
                  titlePlaceholder := VStr (lit "Title");
                  descriptionPlaceholder := VStr (lit "Description") |};
     data := VRef 1;
     deleteImageButton := None;
     store := {[ 1%positive := ∅; 2%positive := ∅; 3%positive := ∅; 4%positive := ∅ ]};
     notifier := []; tooltips := []; timers := [];
     now := 0%N; prompts := 0; requests := 0; uncaught := [] |}.

(** That instance after [render]. *)
Definition rendered : state := (render plain_text constructed).2.

(** The rendered block typed into: the text region holds
    [ Hello <b>world</b> ], the title region [ A title], the description
    region nothing. *)
Definition typed : state :=
  edit Title [MText (lit " A title")]
    (edit Text [MText (lit " Hello "); MElem "b" [] [MText (lit "world")];
                MText (lit " ")]
       rendered).

(** The user clicks the image region and picks a file: the loader shows. *)
Definition loading : state := (Uploader.fileChosen (click Image rendered)).2.

(** The response arrives: its objects are on the heap, at locations not
    in use. *)
Definition answered_with (objects : heap) (s : state) : state :=
  set_store (store s ∪ objects) s.

(** The response [{ body: { success: 0 } }] at location 10. *)
Definition rejection : heap :=
  {[ 10%positive := {[ "body" := VRef 11 ]};
     11%positive := {[ "success" := VNum Js.zero ]} ]}.

(** The response [{ body: { success: 1, file: {} } }] at location 10. *)
Definition no_url : heap :=
  {[ 10%positive := {[ "body" := VRef 11 ]};
     11%positive := {[ "success" := VNum Js.one; "file" := VRef 12 ]};
     12%positive := ∅ ]}.

(** The response
    [{ body: { success: 1, file: { url: 'https://x/y.png', size: 7 } } }]
    at location 10. *)
Definition accepted : heap :=
  {[ 10%positive := {[ "body" := VRef 11 ]};
     11%positive := {[ "success" := VNum Js.one; "file" := VRef 12 ]};
     12%positive := {[ "url" := VStr (lit "https://x/y.png"); "size" := VNum {| number_value := 7; number_safe := eq_refl |} ]} ]}.




End Example.

(** ** Notions the statements below use *)

(** What [Object.assign] leaves on the heap when the target is an object. *)
Definition assigned (h : heap) (l : loc) (text title description : jsstring) : heap :=
  <[l := <["description" := VStr description]>
           (<["title" := VStr title]>
              (<["text" := VStr text]> (Js.objectAt h l)))]> h.

(** [o.k], [undefined] when absent. *)
Definition prop (h : heap) (l : loc) (k : string) : value :=
  default VUndefined (Js.objectAt h l !! k).

(** [v.k] is defined: reading it works and gives something else than
    [undefined]. *)
Definition defined (h : heap) (v : value) (k : string) : Prop :=
  ∃ x, Js.get_prop h v k = Ok x ∧ x ≠ VUndefined.

(** [image.url] as text, for a truthy [image]: what [render] writes into
    [url('...')]. *)
Definition image_url (h : heap) (image : value) : jsstring :=
  Js.to_string (match Js.get_prop h image "url" with
                | Ok url => url
                | Throw _ => VUndefined
                end).


(** * Properties *)

Local Open Scope list_scope.

(** ** Trimming *)

Module TrimFacts.
Import JsString.

Lemma trimStart_nil (s : jsstring) : trimStart s = [] ↔ blank s = true.
Proof.
  unfold blank. induction s as [|c r IH]; simpl; [done|].
  destruct (is_whitespace c); simpl; [exact IH|].
  split; discriminate.
Qed.

Lemma blank_trimStart (s : jsstring) : blank (trimStart s) = blank s.
Proof.
  unfold blank. induction s as [|c r IH]; simpl; [done|].
  destruct (is_whitespace c) eqn:E; simpl; [exact IH|].
  by rewrite E.
Qed.

Lemma blank_rev (s : jsstring) : blank (rev s) = blank s.
Proof.
  unfold blank. apply eq_true_iff_eq. rewrite !forallb_forall.
  split; intros H x Hx; apply H; by apply in_rev in Hx || apply in_rev.
Qed.

Lemma trimEnd_nil (s : jsstring) : trimEnd s = [] ↔ blank s = true.
Proof.
  unfold trimEnd. rewrite <- blank_rev, <- trimStart_nil.
  split; intros H; [|by rewrite H].
  apply (f_equal (@rev N)) in H. by rewrite rev_involutive in H.
Qed.

Lemma trim_nil (s : jsstring) : trim s = [] ↔ blank s = true.
Proof. unfold trim. by rewrite trimEnd_nil, blank_trimStart. Qed.

Lemma not_blank_iff (s : jsstring) :
  blank s = false ↔ ∃ c, c ∈ s ∧ is_whitespace c = false.
Proof.
  unfold blank. induction s as [|c r IH]; simpl.
  - split; [discriminate|]. intros (c & Hc & _). by apply elem_of_nil in Hc.
  - destruct (is_whitespace c) eqn:E; simpl.
    + rewrite IH. split; intros (x & Hx & Hw).
      * exists x. split; [by right|done].
      * apply elem_of_cons in Hx as [->|Hx]; [congruence|eauto].
    + split; [|done]. intros _. exists c. split; [by left|done].
Qed.

Lemma is_empty_nil (s : jsstring) : is_empty s = true ↔ s = [].
Proof. by destruct s. Qed.

End TrimFacts.

(** ** Objects on the heap *)

Lemma objectAt_insert_eq (h : heap) (l : loc) (o : object) :
  Js.objectAt (<[l := o]> h) l = o.
Proof. unfold Js.objectAt. by rewrite lookup_insert_eq. Qed.

Lemma objectAt_insert_ne (h : heap) (l l' : loc) (o : object) :
  l ≠ l' → Js.objectAt (<[l := o]> h) l' = Js.objectAt h l'.
Proof. intros H. unfold Js.objectAt. by rewrite lookup_insert_ne. Qed.

(** A fresh empty object changes no object already there (nor how a
    location not yet in use reads). *)
Lemma objectAt_alloc_empty (h : heap) (l : loc) :
  Js.objectAt (Js.alloc h ∅).2 l = Js.objectAt h l.
Proof.
  unfold Js.alloc; simpl. destruct (decide (fresh (dom h) = l)) as [<-|Hne].
  - rewrite objectAt_insert_eq. unfold Js.objectAt.
    assert (h !! fresh (dom h) = None) as ->; [|done].
    apply not_elem_of_dom, is_fresh.
  - by apply objectAt_insert_ne.
Qed.

Lemma alloc_fresh (h : heap) (o : object) : h !! (Js.alloc h o).1 = None.
Proof. apply not_elem_of_dom, is_fresh. Qed.

Lemma alloc_lookup (h : heap) (o : object) :
  (Js.alloc h o).2 !! (Js.alloc h o).1 = Some o.
Proof. apply lookup_insert_eq. Qed.

(** ** validate *)

(** C3. For a saved record (its [text] is a string), [validate] returns
    [true] exactly when the trimmed text is not the empty string, that is,
    when the text has a character that is not white space; whatever
    [image], [title] and [description] hold does not change the answer. *)
Theorem validate_iff_trimmed_text_nonempty
    (h : heap) (l : loc) (s : jsstring) :
  Js.objectAt h l !! "text" = Some (VStr s) →
  ∃ b : bool,
    validate h (VRef l) = Ok b
    ∧ (b = true ↔ JsString.trim s ≠ [])
    ∧ (b = true ↔ ∃ c, c ∈ s ∧ JsString.is_whitespace c = false)
    ∧ ∀ image title description : value,
        validate
          (<[l := <["image" := image]> (<["title" := title]>
                    (<["description" := description]> (Js.objectAt h l)))]> h)
          (VRef l) = Ok b.
Proof.
  intros Htext.
  exists (negb (JsString.is_empty (JsString.trim s))).
  assert (Hb : negb (JsString.is_empty (JsString.trim s)) = true
               ↔ JsString.trim s ≠ []).
  { rewrite negb_true_iff, <- not_true_iff_false, TrimFacts.is_empty_nil. done. }
  split; [|split; [exact Hb|split]].
  - unfold validate, Js.get_prop. rewrite Htext. done.
  - rewrite Hb, TrimFacts.trim_nil, not_true_iff_false.
    apply TrimFacts.not_blank_iff.
  - intros image title description.
    unfold validate, Js.get_prop. rewrite objectAt_insert_eq.
    rewrite !lookup_insert_ne by done. rewrite Htext. done.
Qed.

(** The record [{ text: ' a ', image: null }] is valid. *)
Lemma validate_iff_trimmed_text_nonempty_witness :
  ∃ b : bool, validate Example.saved (VRef 1) = Ok b ∧ b = true.
Proof.
  assert (H : Js.objectAt Example.saved 1 !! "text" = Some (VStr (lit " a ")))
    by (vm_compute; reflexivity).
  destruct (validate_iff_trimmed_text_nonempty Example.saved 1 (lit " a ") H)
    as (b & Hv & Ht & _).
  exists b. split; [exact Hv|]. apply Ht. vm_compute. discriminate.
Defined.

(** A record without [text] makes [validate] throw. *)
Lemma validate_without_text (h : heap) (l : loc) :
  Js.objectAt h l !! "text" = None → is_ok (validate h (VRef l)) = false.
Proof. intros H. unfold validate, Js.get_prop. by rewrite H. Qed.

(** ** Running the monad *)

Lemma bind_ok {A B} (m : M A) (f : A → M B) (s s' : state) (a : A) :
  m s = (Ok a, s') → (m ≫= f) s = f a s'.
Proof. intros H. unfold mbind, M_bind. by rewrite H. Qed.

Lemma bind_throw {A B} (m : M A) (f : A → M B) (s s' : state) (e : error) :
  m s = (Throw e, s') → (m ≫= f) s = (Throw e, s').
Proof. intros H. unfold mbind, M_bind. by rewrite H. Qed.

Ltac unfold_monad :=
  unfold mbind, M_bind, mret, M_ret, gets, modify, lift, throw, deref,
    getp, setp, setTimeout in *.

(** ** save *)

Lemma or_empty_id (s : jsstring) : or_empty s = s.
Proof. by destruct s. Qed.

Lemma innerHTML_empty (el : element) : childNodes el = [] → Dom.innerHTML el = [].
Proof. unfold Dom.innerHTML. by intros ->. Qed.

Lemma textContent_empty (el : element) : childNodes el = [] → Dom.textContent el = [].
Proof. unfold Dom.textContent. by intros ->. Qed.

Lemma Object_assign_ref (l : loc) (text title description : jsstring) (s : state) :
  Object_assign (VRef l) text title description s
  = (Ok (), set_store (assigned (store s) l text title description) s).
Proof.
  unfold Object_assign, assigned. unfold_monad. simpl.
  rewrite !objectAt_insert_eq, !insert_insert_eq. done.
Qed.

(** Once rendered, and with an object for data, [save] returns. *)
Lemma save_rendered (s : state) (t ti de : element) (l : loc) :
  nodes_text (nodes s) = Some t →
  nodes_title (nodes s) = Some ti →
  nodes_description (nodes s) = Some de →
  data s = VRef l →
  save s = (Ok (VRef l),
            set_store (assigned (store s) l
                         (JsString.trim (Dom.innerHTML t))
                         (JsString.trim (Dom.textContent ti))
                         (JsString.trim (Dom.textContent de))) s).
Proof.
  intros Ht Hti Hde Hd. unfold save. unfold_monad.
  rewrite Ht, Hti, Hde. simpl.
  rewrite Hd, Object_assign_ref, !or_empty_id. simpl.
  by rewrite Hd.
Qed.

(** C4, as the code has it. Whatever the three editable regions hold,
    [save] reads the markup of the text region and the text of the title and
    description regions, trims them, writes them to [text], [title] and
    [description] of the data object and returns that very object (the same
    reference).  A title or description region without text gives the empty
    string, whatever markup it holds; the text region gives the empty string
    when it has no child node. *)
Theorem save_writes_trimmed_regions
    (s : state) (t ti de : element) (l : loc) :
  nodes_text (nodes s) = Some t →
  nodes_title (nodes s) = Some ti →
  nodes_description (nodes s) = Some de →
  data s = VRef l →
  ∃ s', save s = (Ok (VRef l), s')
    ∧ data s' = VRef l
    ∧ Js.get_prop (store s') (VRef l) "text"
        = Ok (VStr (JsString.trim (Dom.innerHTML t)))
    ∧ Js.get_prop (store s') (VRef l) "title"
        = Ok (VStr (JsString.trim (Dom.textContent ti)))
    ∧ Js.get_prop (store s') (VRef l) "description"
        = Ok (VStr (JsString.trim (Dom.textContent de)))
    ∧ (childNodes t = [] → Js.get_prop (store s') (VRef l) "text" = Ok (VStr []))
    ∧ (Dom.textContent ti = [] →
         Js.get_prop (store s') (VRef l) "title" = Ok (VStr []))
    ∧ (Dom.textContent de = [] →
         Js.get_prop (store s') (VRef l) "description" = Ok (VStr [])).
Proof.
  intros Ht Hti Hde Hd. eexists. split; [by apply save_rendered|].
  simpl. unfold assigned, Js.get_prop. rewrite objectAt_insert_eq.
  rewrite lookup_insert_eq.
  rewrite (lookup_insert_ne _ "description" "title") by done.
  rewrite (lookup_insert_ne _ "description" "text") by done.
  rewrite lookup_insert_eq.
  rewrite (lookup_insert_ne _ "title" "text") by done.
  rewrite lookup_insert_eq. simpl.
  repeat split; try done.
  - intros H. by rewrite innerHTML_empty.
  - by intros ->.
  - by intros ->.
Qed.

(** [save] writes nothing but the heap, and there only through
    [Object.assign]. *)
Lemma save_store (s : state) :
  (store (save s).2 = store s
   ∨ ∃ l text title description,
       data s = VRef l
       ∧ store (save s).2 = assigned (store s) l text title description)
  ∧ data (save s).2 = data s
  ∧ nodes (save s).2 = nodes s.
Proof.
  unfold save. unfold_monad.
  destruct (nodes_text (nodes s)) as [t|]; simpl; [|by auto].
  destruct (nodes_title (nodes s)) as [ti|]; simpl; [|by auto].
  destruct (nodes_description (nodes s)) as [de|]; simpl; [|by auto].
  destruct (data s) as [| | | | |l] eqn:Hd; simpl; try by auto.
  split; [|done]. right. exists l. do 3 eexists. split; [done|].
  unfold assigned. by rewrite !objectAt_insert_eq, !insert_insert_eq.
Qed.

Lemma assigned_other_property
    (h : heap) (l l' : loc) (text title description : jsstring) (k : string) :
  k ≠ "text" → k ≠ "title" → k ≠ "description" →
  Js.objectAt (assigned h l text title description) l' !! k = Js.objectAt h l' !! k.
Proof.
  intros H1 H2 H3. unfold assigned.
  destruct (decide (l = l')) as [<-|Hne].
  - rewrite objectAt_insert_eq. by rewrite !lookup_insert_ne.
  - by rewrite objectAt_insert_ne.
Qed.

(** C10. A call of [save] changes no property other than [text], [title]
    and [description]: [image] and every other property of the record (and of
    every other object) reads the same before and after, and [this.data] is
    still the same reference. *)
Theorem save_changes_only_text_title_description (s : state) :
  data (save s).2 = data s
  ∧ (∀ l : loc,
       Js.objectAt (store (save s).2) l !! "image" = Js.objectAt (store s) l !! "image")
  ∧ (∀ (l : loc) (k : string),
       k ∉ ["text"; "title"; "description"] →
       Js.objectAt (store (save s).2) l !! k = Js.objectAt (store s) l !! k)
  ∧ (∀ l : loc, VRef l ≠ data s →
       Js.objectAt (store (save s).2) l = Js.objectAt (store s) l).
Proof.
  destruct (save_store s) as ([Hs|(l0 & t & ti & de & Hd & Hs)] & Hdata & _);
    rewrite Hs; clear Hs.
  - by repeat split.
  - repeat split; [done| | |].
    + intros l. by apply assigned_other_property.
    + intros l k Hk. apply assigned_other_property; intros ->; apply Hk;
        repeat constructor.
    + intros l Hl. unfold assigned. apply objectAt_insert_ne. congruence.
Qed.

(** The data object after [save] on the typed-into block. *)
Lemma save_writes_trimmed_regions_witness :
  ∃ s', save Example.typed = (Ok (VRef 1), s')
    ∧ Js.get_prop (store s') (VRef 1) "text" = Ok (VStr (lit "Hello <b>world</b>"))
    ∧ Js.get_prop (store s') (VRef 1) "title" = Ok (VStr (lit "A title"))
    ∧ Js.get_prop (store s') (VRef 1) "description" = Ok (VStr (lit "")).
Proof.
  destruct (save_writes_trimmed_regions Example.typed _ _ _ 1
              eq_refl eq_refl eq_refl eq_refl)
    as (s' & Hs & _ & Ht & Hti & _ & _ & _ & Hde).
  exists s'. split; [exact Hs|]. split; [|split].
  - rewrite Ht. vm_compute. reflexivity.
  - rewrite Hti. vm_compute. reflexivity.
  - apply Hde. reflexivity.
Defined.

(** C4 as stated fails: a text region that holds nothing but the line
    break a browser leaves behind is empty (it has no text), yet [save]
    writes its markup [<br>] to [text], not the empty string. *)
Lemma save_empty_text_region_keeps_markup :
  ∃ t s',
    nodes_text (nodes (edit Text [MElem "br" [] []] Example.rendered)) = Some t
    ∧ Dom.textContent t = []
    ∧ save (edit Text [MElem "br" [] []] Example.rendered) = (Ok (VRef 1), s')
    ∧ Js.get_prop (store s') (VRef 1) "text" = Ok (VStr (lit "<br>"))
    ∧ Js.get_prop (store s') (VRef 1) "text" ≠ Ok (VStr []).
Proof.
  do 2 eexists. split; [vm_compute; reflexivity|].
  split; [reflexivity|].
  split; [vm_compute; reflexivity|].
  split; [vm_compute; reflexivity|].
  vm_compute. discriminate.
Qed.

(** On the typed-into block [save] leaves [image] (absent) and the
    configuration objects alone. *)
Lemma save_changes_only_text_title_description_witness :
  Js.objectAt (store (save Example.typed).2) 1 !! "image" = None
  ∧ Js.objectAt (store (save Example.typed).2) 3 = ∅.
Proof.
  destruct (save_changes_only_text_title_description Example.typed)
    as (_ & Hi & _ & Ho).
  split.
  - rewrite Hi. vm_compute. reflexivity.
  - rewrite Ho; [vm_compute; reflexivity|]. vm_compute. discriminate.
Defined.

(** ** The constructor *)

Lemma config_or_ref (h : heap) (l : loc) (k : string) (d : value) :
  config_or h (VRef l) k d = Ok (Js.or (prop h l k) d).
Proof. reflexivity. Qed.

Lemma prop_alloc_empty (h : heap) (l : loc) (k : string) :
  prop (Js.alloc h ∅).2 l k = prop h l k.
Proof. unfold prop. by rewrite objectAt_alloc_empty. Qed.

(** [config.k || {}] on a configuration object: the supplied value when
    truthy, otherwise a fresh empty object. *)
Lemma config_or_object_ref (h : heap) (l : loc) (k : string) :
  ∃ v h', config_or_object h (VRef l) k = Ok (v, h')
    ∧ (∀ l', Js.objectAt h' l' = Js.objectAt h l')
    ∧ (∀ l', is_Some (h !! l') → h' !! l' = h !! l')
    ∧ (Js.truthy (prop h l k) = true → v = prop h l k ∧ h' = h)
    ∧ (Js.truthy (prop h l k) = false →
         ∃ l', v = VRef l' ∧ h !! l' = None ∧ h' !! l' = Some ∅).
Proof.
  unfold config_or_object. simpl. fold (prop h l k).
  destruct (Js.truthy (prop h l k)) eqn:E.
  - exists (prop h l k), h. by repeat split.
  - exists (VRef (Js.alloc h ∅).1), (Js.alloc h ∅).2. repeat split; try done.
    + intros. apply objectAt_alloc_empty.
    + intros l' [o Hl']. simpl. apply lookup_insert_ne.
      intros <-. pose proof (is_fresh (dom h)) as Hf.
      apply Hf, elem_of_dom. eauto.
    + intros _. eexists. split; [done|]. split; [apply alloc_fresh|apply alloc_lookup].
Qed.

(** C7. On every configuration object, the empty one included, the
    constructor returns an instance (it does not throw), and every
    configuration field the object does not supply (or supplies as a falsy
    value) gets its default: [endpoint] the empty string, [field] ['image'],
    [types] ['image/*'], [additionalRequestData] and [additionalRequestHeaders]
    a new empty object each, and the three placeholders ['Text'], ['Title']
    and ['Description']; a truthy supplied value is kept. *)
Theorem constructor_config_defaults
    (h : heap) (data : value) (lc : loc) (api : API) :
  ∃ s, constructor h data (VRef lc) api = Ok s
    ∧ (∀ k get d,
         (k, get, d) ∈ [("endpoint", endpoint, lit "");
                        ("field", field, lit "image");
                        ("types", types, lit "image/*");
                        ("textPlaceholder", textPlaceholder, lit "Text");
                        ("titlePlaceholder", titlePlaceholder, lit "Title");
                        ("descriptionPlaceholder", descriptionPlaceholder,
                         lit "Description")] →
         (Js.truthy (prop h lc k) = false → get (config s) = VStr d)
         ∧ (Js.truthy (prop h lc k) = true → get (config s) = prop h lc k))
    ∧ (∀ k get,
         (k, get) ∈ [("additionalRequestData", additionalRequestData);
                     ("additionalRequestHeaders", additionalRequestHeaders)] →
         (Js.truthy (prop h lc k) = false →
            ∃ l, get (config s) = VRef l ∧ h !! l = None ∧ store s !! l = Some ∅)
         ∧ (Js.truthy (prop h lc k) = true → get (config s) = prop h lc k))
    ∧ (Js.truthy (prop h lc "additionalRequestData") = false →
       Js.truthy (prop h lc "additionalRequestHeaders") = false →
       additionalRequestData (config s) ≠ additionalRequestHeaders (config s)).
Proof.
  unfold constructor. rewrite !config_or_ref. simpl.
  destruct (config_or_object_ref h lc "additionalRequestData")
    as (v1 & h1 & -> & Hp1 & Hk1 & Ht1 & Hf1). simpl.
  destruct (config_or_object_ref h1 lc "additionalRequestHeaders")
    as (v2 & h2 & -> & Hp2 & Hk2 & Ht2 & Hf2). simpl.
  eexists. split; [reflexivity|]. simpl.
  unfold prop in *. rewrite ?Hp2, ?Hp1. rewrite Hp1 in Ht2, Hf2.
  split; [|split].
  - intros k get d Hin.
    repeat (apply elem_of_cons in Hin as [[= -> -> ->]|Hin];
            [split; intros E; simpl; unfold Js.or; by rewrite E|]).
    by apply elem_of_nil in Hin.
  - intros k get Hin.
    apply elem_of_cons in Hin as [[= -> ->]|Hin].
    { split; [|by intros [-> _]%Ht1].
      intros (l & -> & Hl & Hl1)%Hf1. exists l. repeat split; [done|].
      rewrite Hk2; [done|]. by rewrite Hl1. }
    apply elem_of_cons in Hin as [[= -> ->]|Hin]; [|by apply elem_of_nil in Hin].
    split; [|by intros [-> _]%Ht2].
    intros (l & -> & Hl & Hl2)%Hf2. exists l. repeat split; [|done].
    destruct (h !! l) as [o|] eqn:E; [|done].
    rewrite Hk1 in Hl; [congruence|by rewrite E].
  - intros (l1 & -> & Hl1 & Hl1')%Hf1 (l2 & -> & Hl2 & Hl2')%Hf2.
    simpl. intros [= ->]. congruence.
Qed.

(** The instance built from the empty data and the empty configuration. *)
Lemma constructor_empty :
  constructor Example.empty_objects (VRef 1) (VRef 2) Example.host
  = Ok Example.constructed.
Proof. vm_compute. reflexivity. Qed.

(** With the configuration [{}] every field has its default; with the
    partial configuration of the demonstration page [endpoint] is the one
    supplied and the other fields have their defaults. *)
Lemma constructor_config_defaults_witness :
  (∃ s, constructor Example.empty_objects (VRef 1) (VRef 2) Example.host = Ok s
     ∧ endpoint (config s) = VStr (lit "")
     ∧ field (config s) = VStr (lit "image")
     ∧ types (config s) = VStr (lit "image/*")
     ∧ (∃ l, additionalRequestData (config s) = VRef l ∧ store s !! l = Some ∅)
     ∧ (∃ l, additionalRequestHeaders (config s) = VRef l ∧ store s !! l = Some ∅)
     ∧ textPlaceholder (config s) = VStr (lit "Text")
     ∧ titlePlaceholder (config s) = VStr (lit "Title")
     ∧ descriptionPlaceholder (config s) = VStr (lit "Description"))
  ∧ (∃ s, constructor Example.demo_page (VRef 1) (VRef 2) Example.host = Ok s
       ∧ endpoint (config s) = VStr (lit "http://localhost:8008/uploadFile")
       ∧ field (config s) = VStr (lit "image")
       ∧ textPlaceholder (config s) = VStr (lit "Text")).
Proof.
  split.
  - destruct (constructor_config_defaults Example.empty_objects (VRef 1) 2 Example.host)
      as (s & Hs & Hstr & Hobj & _).
    exists s. split; [exact Hs|].
    repeat split.
    + apply (Hstr "endpoint" endpoint (lit "")); [repeat constructor|reflexivity].
    + apply (Hstr "field" field (lit "image")); [repeat constructor|reflexivity].
    + apply (Hstr "types" types (lit "image/*")); [repeat constructor|reflexivity].
    + destruct (Hobj "additionalRequestData" additionalRequestData) as [Hd _];
        [repeat constructor|].
      destruct (Hd eq_refl) as (l & ? & _ & ?). eauto.
    + destruct (Hobj "additionalRequestHeaders" additionalRequestHeaders) as [Hd _];
        [repeat constructor|].
      destruct (Hd eq_refl) as (l & ? & _ & ?). eauto.
    + apply (Hstr "textPlaceholder" textPlaceholder (lit "Text"));
        [repeat constructor|reflexivity].
    + apply (Hstr "titlePlaceholder" titlePlaceholder (lit "Title"));
        [repeat constructor|reflexivity].
    + apply (Hstr "descriptionPlaceholder" descriptionPlaceholder (lit "Description"));
        [repeat constructor|reflexivity].
  - destruct (constructor_config_defaults Example.demo_page (VRef 1) 2 Example.host)
      as (s & Hs & Hstr & _).
    exists s. split; [exact Hs|].
    repeat split.
    + apply (Hstr "endpoint" endpoint (lit "")); [repeat constructor|reflexivity].
    + apply (Hstr "field" field (lit "image")); [repeat constructor|reflexivity].
    + apply (Hstr "textPlaceholder" textPlaceholder (lit "Text"));
        [repeat constructor|reflexivity].
Defined.

(** Without a configuration object at all the constructor throws at
    [config.endpoint]; the host always passes an object. *)
Lemma constructor_undefined_config (h : heap) (data : value) (api : API) :
  is_ok (constructor h data VUndefined api) = false.
Proof. reflexivity. Qed.

Lemma result_bind_ok {A B} (r : result A) (f : A → result B) (b : B) :
  r ≫= f = Ok b → ∃ a, r = Ok a ∧ f a = Ok b.
Proof. destruct r as [a|e]; simpl; [eauto|discriminate]. Qed.

Lemma config_or_object_heap (h h' : heap) (c v : value) (k : string) :
  config_or_object h c k = Ok (v, h') →
  ∀ l, Js.objectAt h' l = Js.objectAt h l.
Proof.
  unfold config_or_object. intros (x & _ & H)%result_bind_ok l.
  destruct (Js.truthy x); simpl in H; injection H as <- <-; [done|].
  apply objectAt_alloc_empty.
Qed.

Lemma constructor_data_store (h : heap) (saved config : value) (api : API) (s : state) :
  constructor h saved config api = Ok s →
  data s = saved ∧ ∀ l, Js.objectAt (store s) l = Js.objectAt h l.
Proof.
  unfold constructor.
  intros (? & _ & H)%result_bind_ok.
  apply result_bind_ok in H as (? & _ & H).
  apply result_bind_ok in H as (? & _ & H).
  apply result_bind_ok in H as ([v1 h1] & H1 & H).
  apply result_bind_ok in H as ([v2 h2] & H2 & H).
  apply result_bind_ok in H as (? & _ & H).
  apply result_bind_ok in H as (? & _ & H).
  apply result_bind_ok in H as (? & _ & H).
  injection H as <-. simpl. split; [done|]. intros l.
  rewrite (config_or_object_heap _ _ _ _ _ H2).
  apply (config_or_object_heap _ _ _ _ _ H1).
Qed.

(** C6, as the code has it. The constructor keeps the saved data it is
    given as it is: [this.data] is that very value, no property of it is
    written, and so a field is defined after construction exactly when the
    supplied data defines it.  Nothing is merged with defaults. *)
Theorem constructor_keeps_data_as_given
    (h : heap) (saved config : value) (api : API) (s : state) :
  constructor h saved config api = Ok s →
  data s = saved
  ∧ (∀ k, Js.get_prop (store s) saved k = Js.get_prop h saved k)
  ∧ (∀ k, defined (store s) (data s) k ↔ defined h saved k).
Proof.
  intros [Hd Hs]%constructor_data_store.
  assert (Hg : ∀ k, Js.get_prop (store s) saved k = Js.get_prop h saved k).
  { intros k. destruct saved; simpl; try done. by rewrite Hs. }
  split; [done|]. split; [done|].
  intros k. unfold defined. rewrite Hd. by setoid_rewrite Hg.
Qed.

(** The data [{ text: ' a ', image: null }] stays what it is. *)
Lemma constructor_keeps_data_as_given_witness :
  ∃ s, constructor Example.saved (VRef 1) (VRef 2) Example.host = Ok s
    ∧ data s = VRef 1
    ∧ Js.get_prop (store s) (VRef 1) "text" = Ok (VStr (lit " a "))
    ∧ Js.get_prop (store s) (VRef 1) "title" = Ok VUndefined.
Proof.
  destruct (constructor Example.saved (VRef 1) (VRef 2) Example.host)
    as [s|e] eqn:Hs; [|vm_compute in Hs; discriminate].
  destruct (constructor_keeps_data_as_given _ _ _ _ s Hs) as (Hd & Hg & _).
  exists s. split; [reflexivity|]. split; [exact Hd|].
  rewrite !Hg. split; vm_compute; reflexivity.
Defined.

(** C6 as stated fails: built from the empty saved data [{}], the record
    has none of [text], [title], [description] and [image] defined. *)
Lemma constructor_empty_data_undefined :
  ∃ s, constructor Example.empty_objects (VRef 1) (VRef 2) Example.host = Ok s
    ∧ ¬ defined (store s) (data s) "text"
    ∧ ¬ defined (store s) (data s) "title"
    ∧ ¬ defined (store s) (data s) "description"
    ∧ ¬ defined (store s) (data s) "image".
Proof.
  exists Example.constructed. split; [exact constructor_empty|].
  repeat split; intros (x & Hx & Hne); vm_compute in Hx; congruence.
Qed.

(** ** render *)

Lemma get_prop_truthy (h : heap) (v : value) (k : string) :
  Js.truthy v = true → ∃ x, Js.get_prop h v k = Ok x.
Proof. destruct v; simpl; try discriminate; eauto. Qed.

(** Steps of a method on a given state. *)
Lemma bind_gets {A B} (f : state → A) (k : A → M B) (s : state) :
  (gets f ≫= k) s = k (f s) s.
Proof. reflexivity. Qed.

Lemma bind_modify {B} (f : state → state) (k : unit → M B) (s : state) :
  (modify f ≫= k) s = k () (f s).
Proof. reflexivity. Qed.

Lemma bind_getp {B} (v x : value) (key : string) (k : value → M B) (s : state) :
  Js.get_prop (store s) v key = Ok x → (getp v key ≫= k) s = k x s.
Proof. intros H. unfold getp, lift, mbind, M_bind. by rewrite H. Qed.

Lemma bind_getp_throw {B} (v : value) (e : error) (key : string)
    (k : value → M B) (s : state) :
  Js.get_prop (store s) v key = Throw e → (getp v key ≫= k) s = (Throw e, s).
Proof. intros H. unfold getp, lift, mbind, M_bind. by rewrite H. Qed.

Lemma update_image_some (f : element → element) (s : state) (el : element) :
  nodes_image (nodes s) = Some el →
  update_image f s = (Ok (), set_nodes (with_image (Some (f el))) s).
Proof. intros H. unfold update_image. unfold_monad. by rewrite H. Qed.

Lemma bind_update_image {B} (f : element → element) (k : unit → M B)
    (s : state) (el : element) :
  nodes_image (nodes s) = Some el →
  (update_image f ≫= k) s = k () (set_nodes (with_image (Some (f el))) s).
Proof. intros H. by rewrite (bind_ok _ _ _ _ _ (update_image_some f s el H)). Qed.




(** The class names of the host pass the check of [classList.add]. *)
Lemma check_token_valid (c : string) :
  valid_token c = true → Dom.check_token c = Ok ().
Proof.
  destruct c as [|a r]; [discriminate|]. unfold valid_token, Dom.check_token.
  by destruct (has_whitespace (String a r)).
Qed.

Lemma check_token_host (t : token) : Dom.check_token (token_string t) = Ok ().
Proof. apply check_token_valid, token_valid. Qed.

Lemma make_array (parse : jsstring → list markup) (tag : string)
    (l : list string) (attributes : list attribute) :
  Dom.check_tokens l = Ok () →
  make parse tag (ClassArray l) attributes
  = Ok (foldl (λ el a, set_attribute parse a el)
          (foldl (λ el c, Dom.classList_add c el) (Dom.createElement tag) l)
          attributes).
Proof. intros H. unfold make, Dom.classList_add_all. by rewrite H. Qed.

Lemma make_name (parse : jsstring → list markup) (tag c : string)
    (attributes : list attribute) :
  valid_token c = true →
  make parse tag (ClassName c) attributes
  = Ok (foldl (λ el a, set_attribute parse a el)
          (Dom.classList_add c (Dom.createElement tag)) attributes).
Proof.
  intros H. unfold make, Dom.classList_add_all. simpl Dom.check_tokens.
  rewrite (check_token_valid c H).
  case_bool_decide as E; [by rewrite E in H|done].
Qed.

Lemma bind_make {B} (parse : jsstring → list markup) (tag : string)
    (cn : classNames) (attributes : list attribute) (el : element)
    (k : element → M B) (s : state) :
  make parse tag cn attributes = Ok el →
  (this_make parse tag cn attributes ≫= k) s = k el s.
Proof. intros H. unfold this_make, lift, mbind, M_bind. by rewrite H. Qed.

(** The straight-line steps of [render]. *)
Ltac render_steps :=
  repeat first
    [ rewrite bind_gets
    | rewrite bind_modify
    | erewrite bind_make
        by first
          [ by apply make_name
          | apply make_array; unfold CSS.baseClass, CSS.input;
            cbn [Dom.check_tokens]; by rewrite check_token_host ] ].

(** The image branch of [render] (lines 268-272). *)
Lemma render_image_branch (s : state) (el : element) (image : value) :
  nodes_image (nodes s) = Some el →
  (if Js.truthy image then url ← getp image "url"; setImage url
   else setImagePlaceholder) s
  = (Ok (), set_nodes (with_image (Some (Dom.set_background
       (if Js.truthy image then BgImage (image_url (store s) image)
        else BgPlaceholder) el))) s).
Proof.
  intros H. unfold image_url. destruct (Js.truthy image) eqn:E.
  - destruct (get_prop_truthy (store s) image "url" E) as [url Hu].
    rewrite Hu. rewrite (bind_getp _ _ _ _ _ Hu). by apply update_image_some.
  - by apply update_image_some.
Qed.


(** ** Timers *)

Lemma insert_timer_last (t u : timer) (l : list timer) :
  (due t ≤ due u)%N →
  insert_timer t (l ++ [u]) = insert_timer t l ++ [u].
Proof.
  intros H. induction l as [|x l IH]; simpl.
  - by rewrite (proj2 (N.leb_le _ _) H).
  - destruct (due t <=? due x)%N; [done|]. by rewrite IH.
Qed.

(** A timer due no earlier than the others and set last fires last. *)
Lemma sort_timers_last (u : timer) (l : list timer) :
  Forall (λ t, (due t ≤ due u)%N) l →
  sort_timers (l ++ [u]) = sort_timers l ++ [u].
Proof.
  unfold sort_timers. induction 1 as [|t l Ht _ IH]; simpl; [done|].
  rewrite IH. by apply insert_timer_last.
Qed.

Lemma advance_last (dt : N) (s : state) (ts : list timer) (u : timer) :
  timers s = ts ++ [u] →
  due u = (now s + dt)%N →
  ∃ s0 due_before,
    advance dt s = fire (foldl fire s0 due_before) u
    ∧ nodes s0 = nodes s ∧ store s0 = store s ∧ data s0 = data s
    ∧ api s0 = api s ∧ notifier s0 = notifier s.
Proof.
  intros Ht Hu. unfold advance. rewrite Ht, !filter_app.
  rewrite (filter_cons_True (λ x, (due x ≤ now s + dt)%N) u) by (simpl; lia).
  rewrite filter_nil. rewrite sort_timers_last.
  - rewrite foldl_app. simpl. by do 2 eexists.
  - rewrite Hu. apply Forall_forall. intros t [Hd _]%list_elem_of_filter. exact Hd.
Qed.

(** A timer callback touches the image element only. *)
Lemma fire_frame (s : state) (t : timer) :
  store (fire s t) = store s ∧ data (fire s t) = data s
  ∧ api (fire s t) = api s ∧ notifier (fire s t) = notifier s
  ∧ (is_Some (nodes_image (nodes s)) → is_Some (nodes_image (nodes (fire s t)))).
Proof.
  unfold fire, catch, run_callback.
  destruct (callback t); rewrite bind_gets.
  - destruct (nodes_image (nodes s)) as [el|] eqn:E.
    + erewrite bind_update_image by exact E. rewrite bind_gets.
      match goal with
      | |- context [(getp ?d "image" ≫= ?k) ?s1] =>
          destruct (Js.get_prop (store s1) d "image") as [image|e] eqn:Hi;
          [rewrite (bind_getp d image "image" k s1 Hi)
          |rewrite (bind_getp_throw d e "image" k s1 Hi); simpl; by eauto 10]
      end.
      match goal with
      | |- context [(getp image "url" ≫= ?k) ?s1] =>
          destruct (Js.get_prop (store s1) image "url") as [url|e] eqn:Hu;
          [rewrite (bind_getp image url "url" k s1 Hu)
          |rewrite (bind_getp_throw image e "url" k s1 Hu); simpl; by eauto 10]
      end.
      unfold setImage. erewrite update_image_some by reflexivity.
      simpl. by eauto 10.
    + unfold update_image. unfold_monad. rewrite E. simpl.
      repeat split; first [done|by intros [? [=]]].
  - destruct (nodes_image (nodes s)) as [el|] eqn:E.
    + erewrite bind_update_image by exact E.
      erewrite update_image_some by reflexivity. simpl. by eauto 10.
    + unfold update_image. unfold_monad. rewrite E. simpl.
      repeat split; first [done|by intros [? [=]]].
Qed.

Lemma foldl_fire_frame (l : list timer) (s : state) :
  store (foldl fire s l) = store s ∧ data (foldl fire s l) = data s
  ∧ api (foldl fire s l) = api s ∧ notifier (foldl fire s l) = notifier s
  ∧ (is_Some (nodes_image (nodes s)) →
     is_Some (nodes_image (nodes (foldl fire s l)))).
Proof.
  revert s. induction l as [|t l IH]; intros s; simpl; [done|].
  destruct (IH (fire s t)) as (-> & -> & -> & -> & Hi).
  destruct (fire_frame s t) as (-> & -> & -> & -> & Hi').
  by eauto 10.
Qed.

(** The failure timer: the loader class goes, and the whole [style]
    attribute with it. *)
Lemma fire_StopLoading (s : state) (el : element) (t : timer) :
  nodes_image (nodes s) = Some el →
  callback t = StopLoadingCb →
  ∃ el', nodes_image (nodes (fire s t)) = Some el'
    ∧ (CSS.loader (api s) ∉ classList el')
    ∧ style el' = None.
Proof.
  intros E Hc. unfold fire, catch, run_callback. rewrite Hc, bind_gets.
  erewrite bind_update_image by exact E.
  erewrite update_image_some by reflexivity.
  eexists. split; [reflexivity|]. simpl. split; [|done].
  intros [H _]%list_elem_of_filter. by apply H.
Qed.


(** ** The upload callbacks *)

(** X1. The error callback, then the delay: the region is unstyled and without
    loader, one error notification has been raised, the heap is as it was. *)
Lemma uploadingFailed_after_delay (s : state) (el : element) (msg : jsstring) :
  nodes_image (nodes s) = Some el →
  ∃ s1, uploadingFailed msg s = (Ok (), s1)
    ∧ ∃ el', nodes_image (nodes (advance LOADER_DELAY s1)) = Some el'
      ∧ (CSS.loader (api s) ∉ classList el')
      ∧ style el' = None
      ∧ visualState (api s) el' = Empty
      ∧ notifier (advance LOADER_DELAY s1)
        = notifier s ++ [{| message := msg; notification_style := "error" |}]
      ∧ store (advance LOADER_DELAY s1) = store s
      ∧ data (advance LOADER_DELAY s1) = data s.
Proof.
  intros E. eexists. split; [reflexivity|].
  set (t := Build_timer (now s + LOADER_DELAY)%N StopLoadingCb).
  match goal with
  | |- context [advance _ ?s1] =>
      destruct (advance_last LOADER_DELAY s1 (timers s) t eq_refl eq_refl)
        as (s0 & before & -> & Hn & Hs & Hd & Ha & Hno)
  end.
  destruct (foldl_fire_frame before s0) as (Hs' & Hd' & Ha' & Hno' & Hi).
  destruct Hi as [el0 E0]; [rewrite Hn; simpl; by eauto|].
  destruct (fire_StopLoading _ _ t E0 eq_refl) as (el' & E' & Hl & Hst).
  destruct (fire_frame (foldl fire s0 before) t)
    as (Hs'' & Hd'' & Ha'' & Hno'' & _).
  exists el'. split; [exact E'|].
  rewrite Ha', Ha in Hl. simpl in Hl.
  split; [exact Hl|]. split; [exact Hst|].
  split. { unfold visualState. rewrite bool_decide_eq_false_2 by exact Hl. by rewrite Hst. }
  rewrite Hno'', Hno', Hno, Hs'', Hs', Hs, Hd'', Hd', Hd. done.
Qed.

(** When its test fails [onUpload] does nothing at all. *)
Lemma onUpload_ignored (s : state) (response body success file : value) :
  Js.get_prop (store s) response "body" = Ok body →
  Js.get_prop (store s) body "success" = Ok success →
  Js.get_prop (store s) body "file" = Ok file →
  Js.truthy success && Js.truthy file = false
  ∨ (∃ url, Js.get_prop (store s) file "url" = Ok url ∧ Js.truthy url = false) →
  onUpload response s = (Ok (), s).
Proof.
  intros Hb Hs Hf Hg. unfold onUpload.
  rewrite (bind_getp _ _ _ _ _ Hb), (bind_getp _ _ _ _ _ Hs), (bind_getp _ _ _ _ _ Hf).
  destruct (Js.truthy success && Js.truthy file) eqn:E.
  - destruct Hg as [[=]|(url & Hu & Ht)].
    rewrite (bind_getp _ _ _ _ _ Hu), Ht. reflexivity.
  - reflexivity.
Qed.

Lemma get_prop_lookup (h : heap) (l : loc) (k : string) (v : value) :
  Js.objectAt h l !! k = Some v → Js.get_prop h (VRef l) k = Ok v.
Proof. intros H. unfold Js.get_prop. by rewrite H. Qed.




(** C1 fails on the code: a response whose body has [success] equal to 0
    reaches [onUpload], whose test fails and which has no other branch.  No
    timer is set and no notification raised; once the delay has passed the
    image region still carries the loader class and shows as [Loading]. *)
Theorem upload_rejected_keeps_loader :
  ∃ s1 el,
    Uploader.complete (Uploader.OnUpload (VRef 10))
      (Example.answered_with Example.rejection Example.loading) = (Ok (), s1)
    ∧ timers s1 = []
    ∧ notifier (advance LOADER_DELAY s1) = []
    ∧ nodes_image (nodes (advance LOADER_DELAY s1)) = Some el
    ∧ CSS.loader Example.host ∈ classList el
    ∧ style el = Some BgNone
    ∧ visualState Example.host el = Loading.
Proof.
  do 2 eexists. split; [vm_compute; reflexivity|].
  split; [reflexivity|]. split; [reflexivity|].
  split; [vm_compute; reflexivity|].
  split; [|split; reflexivity].
  apply list_elem_of_In. right. left. reflexivity.
Qed.

(** The same with a [file] record that lacks [url]. *)
Lemma upload_without_url_keeps_loader :
  ∃ s1 el,
    Uploader.complete (Uploader.OnUpload (VRef 10))
      (Example.answered_with Example.no_url Example.loading) = (Ok (), s1)
    ∧ timers s1 = []
    ∧ notifier (advance LOADER_DELAY s1) = []
    ∧ nodes_image (nodes (advance LOADER_DELAY s1)) = Some el
    ∧ visualState Example.host el = Loading.
Proof.
  do 2 eexists. split; [vm_compute; reflexivity|].
  split; [reflexivity|]. split; [reflexivity|].
  split; [vm_compute; reflexivity|]. reflexivity.
Qed.

(** ** The delete control *)

Lemma handlers_for_single (e : Event) (el : element) (h : handler) :
  listeners el = [(type e, h)] → handlers_for e el = [h].
Proof.
  intros H. unfold handlers_for. rewrite H.
  rewrite filter_cons_True by reflexivity. reflexivity.
Qed.

(** What the click leaves: the listener of lines 281-287 has run, and
    nothing else. *)
Lemma delete_click_run (s : state) (button el : element) (l : loc) :
  deleteImageButton s = Some button →
  listeners button = [("click", Arrow_deleteImage)] →
  nodes_image (nodes s) = Some el →
  data s = VRef l →
  click DeleteImageButton s
  = set_store (<[l := <["image" := VNull]> (Js.objectAt (store s) l)]> (store s))
      (set_nodes (with_image (Some (Dom.set_background BgPlaceholder el))) s).
Proof.
  intros Hb Hl E Hd.
  unfold click, dispatchEvent. simpl propagation_path.
  unfold propagate at 1. simpl element_at. rewrite Hb.
  rewrite (handlers_for_single (Build_Event "click" "") _ _ Hl). simpl.
  unfold catch, setImagePlaceholder.
  erewrite bind_update_image by exact E.
  rewrite bind_gets. simpl data. rewrite Hd.
  reflexivity.
Qed.

(** C5. A click on the delete control runs its listener at once and
    nothing else: the background of the image region becomes the
    placeholder and [this.data.image] becomes [null].  The click does not
    bubble to the image region, so no file prompt opens and no request is
    sent; no timer is set, no notification raised.  With no upload under
    way (no loader class) the region shows as [Empty]. *)
Theorem delete_click_clears_image
    (s : state) (button el : element) (l : loc) :
  deleteImageButton s = Some button →
  listeners button = [("click", Arrow_deleteImage)] →
  nodes_image (nodes s) = Some el →
  data s = VRef l →
  ∃ el',
    nodes_image (nodes (click DeleteImageButton s)) = Some el'
    ∧ style el' = Some BgPlaceholder
    ∧ classList el' = classList el
    ∧ ((CSS.loader (api s) ∉ classList el) → visualState (api s) el' = Empty)
    ∧ Js.get_prop (store (click DeleteImageButton s)) (data s) "image" = Ok VNull
    ∧ data (click DeleteImageButton s) = data s
    ∧ timers (click DeleteImageButton s) = timers s
    ∧ now (click DeleteImageButton s) = now s
    ∧ prompts (click DeleteImageButton s) = prompts s
    ∧ requests (click DeleteImageButton s) = requests s
    ∧ notifier (click DeleteImageButton s) = notifier s
    ∧ uncaught (click DeleteImageButton s) = uncaught s.
Proof.
  intros Hb Hl E Hd. rewrite (delete_click_run s button el l Hb Hl E Hd).
  eexists. split; [reflexivity|]. simpl.
  split; [reflexivity|]. split; [reflexivity|].
  split.
  { intros Hn. unfold visualState. simpl.
    by rewrite bool_decide_eq_false_2 by exact Hn. }
  split.
  { rewrite Hd. apply get_prop_lookup. rewrite objectAt_insert_eq.
    apply lookup_insert_eq. }
  by repeat split.
Qed.

(** The click on the example block once an image is loaded. *)
Lemma delete_click_clears_image_witness :
  let s := advance LOADER_DELAY
             (Uploader.complete (Uploader.OnUpload (VRef 10))
                (Example.answered_with Example.accepted Example.loading)).2 in
  Js.get_prop (store s) (data s) "image" = Ok (VRef 12)
  ∧ ∃ el', nodes_image (nodes (click DeleteImageButton s)) = Some el'
      ∧ style el' = Some BgPlaceholder
      ∧ visualState (api s) el' = Empty
      ∧ Js.get_prop (store (click DeleteImageButton s)) (data s) "image" = Ok VNull
      ∧ prompts (click DeleteImageButton s) = prompts s
      ∧ requests (click DeleteImageButton s) = requests s
      ∧ timers (click DeleteImageButton s) = timers s.
Proof.
  intros s. split; [vm_compute; reflexivity|].
  assert (∃ b, deleteImageButton s = Some b
               ∧ listeners b = [("click", Arrow_deleteImage)]) as (b & Hb & Hl)
    by (eexists; split; vm_compute; reflexivity).
  assert (∃ el, nodes_image (nodes s) = Some el
                ∧ (CSS.loader (api s) ∉ classList el)) as (el & E & Hn).
  { eexists; split; [vm_compute; reflexivity|].
    vm_compute. intros H.
    repeat (inversion H as [|? ? ? H']; clear H; rename H' into H). }
  assert (Hd : data s = VRef 1) by (vm_compute; reflexivity).
  destruct (delete_click_clears_image s b el 1 Hb Hl E Hd)
    as (el' & E' & Hst & _ & Hv & Hi & _ & Ht & _ & Hp & Hr & _).
  exists el'. split; [exact E'|]. split; [exact Hst|].
  split; [exact (Hv Hn)|]. split; [exact Hi|].
  split; [exact Hp|]. split; [exact Hr|]. exact Ht.
Defined.

(** C5 as stated fails: right after a successful upload has been answered
    [this.data.image] is the file record, not [null], and the loader is
    still on for the delay.  A click on the delete control then sets
    [this.data.image] to [null] and the placeholder background, but the
    loader class stays: the region shows as [Loading], not as [Empty]. *)
Lemma delete_click_during_delay_not_empty :
  ∃ s1 el',
    Uploader.complete (Uploader.OnUpload (VRef 10))
      (Example.answered_with Example.accepted Example.loading) = (Ok (), s1)
    ∧ Js.get_prop (store s1) (data s1) "image" = Ok (VRef 12)
    ∧ nodes_image (nodes (click DeleteImageButton s1)) = Some el'
    ∧ Js.get_prop (store (click DeleteImageButton s1)) (data s1) "image" = Ok VNull
    ∧ style el' = Some BgPlaceholder
    ∧ CSS.loader (api s1) ∈ classList el'
    ∧ visualState (api s1) el' = Loading
    ∧ visualState (api s1) el' ≠ Empty.
Proof.
  do 2 eexists. split; [vm_compute; reflexivity|].
  split; [vm_compute; reflexivity|].
  split; [vm_compute; reflexivity|].
  split; [vm_compute; reflexivity|].
  split; [vm_compute; reflexivity|].
  split; [apply list_elem_of_In; right; left; reflexivity|].
  split; [vm_compute; reflexivity|].
  vm_compute. discriminate.
Qed.

(** ** The image region at render *)




(** ** The key-up handler *)

(** Called on the instance, [onKeyUp] does what its comment says: a
    Backspace or Delete that leaves no text empties the markup. *)
Lemma onKeyUp_on_instance (s : state) (t : element) (e : Event) :
  code e = "Backspace" ∨ code e = "Delete" →
  nodes_text (nodes s) = Some t →
  Dom.textContent t = [] →
  onKeyUp ThisInstance e s
  = (Ok (), set_nodes (with_text (Some (Dom.set_childNodes [] t))) s).
Proof.
  intros Hc Ht Hempty. unfold onKeyUp.
  assert (bool_decide (code e ≠ "Backspace") && bool_decide (code e ≠ "Delete") = false)
    as -> by (destruct Hc as [-> | ->]; reflexivity).
  unfold this_nodes. unfold_monad. simpl. rewrite Ht. simpl. by rewrite Hempty.
Qed.

(** Called as the listener [render] registers, it throws at [this.nodes.text]
    and changes nothing. *)
Lemma onKeyUp_on_element (s : state) (el : element) (e : Event) :
  code e = "Backspace" ∨ code e = "Delete" →
  onKeyUp (ThisElement el) e s
  = (Throw (TypeError "Cannot read properties of undefined (reading 'text')"), s).
Proof.
  intros Hc. unfold onKeyUp.
  assert (bool_decide (code e ≠ "Backspace") && bool_decide (code e ≠ "Delete") = false)
    as -> by (destruct Hc as [-> | ->]; reflexivity).
  reflexivity.
Qed.

(** Any other key: the handler returns before it reads [this]. *)
Lemma onKeyUp_other_key (this : receiver) (e : Event) (s : state) :
  code e ≠ "Backspace" → code e ≠ "Delete" →
  onKeyUp this e s = (Ok (), s).
Proof.
  intros H1 H2. unfold onKeyUp.
  by rewrite (bool_decide_eq_true_2 _ H1), (bool_decide_eq_true_2 _ H2).
Qed.

(** On a rendered block, a Backspace released in the text region ends in an
    uncaught TypeError and changes nothing else, whatever the region holds. *)
Lemma keyup_backspace_throws (s : state) (t w : element) :
  nodes_text (nodes s) = Some t →
  listeners t = [("keyup", Method_onKeyUp)] →
  nodes_wrapper (nodes s) = Some w →
  listeners w = [] →
  keyup Text "Backspace" s
  = set_uncaught
      (uncaught s ++ [TypeError "Cannot read properties of undefined (reading 'text')"])
      s.
Proof.
  intros Ht Hl Hw Hlw.
  unfold keyup, dispatchEvent. simpl propagation_path.
  unfold propagate. simpl element_at. rewrite Ht.
  rewrite (handlers_for_single (Build_Event "keyup" "Backspace") _ _ Hl).
  cbn [foldl existsb stops_propagation orb]. unfold catch at 1, invoke.
  rewrite onKeyUp_on_element by (by left).
  cbn [element_at nodes set_uncaught]. rewrite Hw.
  unfold handlers_for. rewrite Hlw. reflexivity.
Qed.

(** C9 fails on the code: [render] registers [this.onKeyUp] unbound, so in
    the listener [this] is the text element and [this.nodes] is undefined.
    With the text region holding only a line break (no text), releasing
    Backspace throws a TypeError and the markup stays [<br>]. *)
Theorem keyup_backspace_keeps_line_break :
  ∃ t t',
    nodes_text (nodes (edit Text [MElem "br" [] []] Example.rendered)) = Some t
    ∧ Dom.textContent t = []
    ∧ nodes_text (nodes (keyup Text "Backspace"
                           (edit Text [MElem "br" [] []] Example.rendered))) = Some t'
    ∧ Dom.innerHTML t' = lit "<br>"
    ∧ uncaught (keyup Text "Backspace"
                  (edit Text [MElem "br" [] []] Example.rendered))
      = [TypeError "Cannot read properties of undefined (reading 'text')"].
Proof.
  do 2 eexists. split; [vm_compute; reflexivity|]. split; [reflexivity|].
  split; [vm_compute; reflexivity|]. split; reflexivity.
Qed.

(** * Further properties of the class *)

(** ** The error callback and the timers *)

(** On the example block with the loader shown, the error callback and the
    delay leave the region unstyled and one notification raised. *)
Lemma uploadingFailed_after_delay_witness :
  ∃ s1, uploadingFailed (lit "Upload failed") Example.loading = (Ok (), s1)
    ∧ ∃ el', nodes_image (nodes (advance LOADER_DELAY s1)) = Some el'
      ∧ style el' = None
      ∧ notifier (advance LOADER_DELAY s1)
        = [{| message := lit "Upload failed"; notification_style := "error" |}].
Proof.
  assert (∃ el, nodes_image (nodes Example.loading) = Some el) as [el E]
    by (eexists; vm_compute; reflexivity).
  destruct (uploadingFailed_after_delay Example.loading el (lit "Upload failed") E)
    as (s1 & Hs1 & el' & E' & _ & Hst & _ & Hn & _).
  exists s1. split; [exact Hs1|]. exists el'.
  split; [exact E'|]. split; [exact Hst|]. exact Hn.
Defined.

(** X2. Time passing never writes the heap and never notifies: the timer
    callbacks touch the image region only. *)
Theorem advance_keeps_data_and_notifier (dt : N) (s : state) :
  store (advance dt s) = store s
  ∧ data (advance dt s) = data s
  ∧ notifier (advance dt s) = notifier s
  ∧ api (advance dt s) = api s.
Proof.
  unfold advance.
  match goal with
  | |- context [foldl fire ?s0 ?l] =>
      destruct (foldl_fire_frame l s0) as (-> & -> & -> & -> & _)
  end.
  by repeat split.
Qed.

(** No timer due yet: only the clock moves. *)
Lemma advance_nothing_due (dt : N) (s : state) :
  Forall (λ t, (now s + dt < due t)%N) (timers s) →
  advance dt s = set_now (now s + dt) s.
Proof.
  intros H. unfold advance.
  assert (H1 : filter (λ x, (due x ≤ now s + dt)%N) (timers s) = []).
  { induction H as [|t l Ht _ IH]; [done|].
    rewrite filter_cons_False; [exact IH|lia]. }
  assert (H2 : filter (λ x, ¬ (due x ≤ now s + dt)%N) (timers s) = timers s).
  { clear H1. induction H as [|t l Ht _ IH]; [done|].
    rewrite filter_cons_True; [by rewrite IH|lia]. }
  rewrite H1, H2. reflexivity.
Qed.

(** X3. The loader is kept for the whole delay: until [LOADER_DELAY] has passed
    (and no earlier timer is due), neither the timer of [stopLoading] nor
    the one of [showFullImage] has changed anything of the tree, and the
    timer is still pending. *)
Theorem loader_kept_until_delay (dt : N) (s : state) :
  (dt < LOADER_DELAY)%N →
  Forall (λ t, (now s + dt < due t)%N) (timers s) →
  nodes (advance dt (stopLoading s).2) = nodes s
  ∧ timers (advance dt (stopLoading s).2)
    = timers s ++ [Build_timer (now s + LOADER_DELAY)%N StopLoadingCb]
  ∧ nodes (advance dt (showFullImage s).2) = nodes s
  ∧ timers (advance dt (showFullImage s).2)
    = timers s ++ [Build_timer (now s + LOADER_DELAY)%N ShowFullImageCb].
Proof.
  intros Hdt H.
  assert (Hall : ∀ cb,
    Forall (λ t, (now s + dt < due t)%N)
      (timers s ++ [Build_timer (now s + LOADER_DELAY)%N cb])).
  { intros cb. apply Forall_app. split; [exact H|].
    apply Forall_singleton. simpl. lia. }
  unfold stopLoading, showFullImage, setTimeout, modify. simpl.
  rewrite !advance_nothing_due by (apply Hall). by repeat split.
Qed.

(** On the example block, 499 ms after the error callback the loader is
    still there. *)
Lemma loader_kept_until_delay_witness :
  nodes (advance 499 (stopLoading Example.loading).2) = nodes Example.loading
  ∧ timers (advance 499 (stopLoading Example.loading).2)
    = [Build_timer 500 StopLoadingCb].
Proof.
  assert (Hdt : (499 < LOADER_DELAY)%N) by (vm_compute; reflexivity).
  assert (H : Forall (λ t, (now Example.loading + 499 < due t)%N)
                (timers Example.loading)) by (vm_compute; constructor).
  destruct (loader_kept_until_delay 499 Example.loading Hdt H) as (Hn & Ht & _).
  split; [exact Hn|]. rewrite Ht. vm_compute. reflexivity.
Defined.

(** ** The loader *)

Lemma addLoader_run (s : state) (el : element) :
  nodes_image (nodes s) = Some el →
  addLoader s
  = (Ok (), set_nodes (with_image
              (Some (Dom.classList_add (CSS.loader (api s))
                       (Dom.set_background BgNone el)))) s).
Proof.
  intros E. unfold addLoader.
  erewrite bind_update_image by exact E. rewrite bind_gets.
  erewrite update_image_some by reflexivity. reflexivity.
Qed.

Lemma classList_add_again (c : string) (b : background) (el : element) :
  Dom.classList_add c (Dom.set_background b (Dom.classList_add c (Dom.set_background b el)))
  = Dom.classList_add c (Dom.set_background b el).
Proof.
  unfold Dom.set_background.
  destruct (parses b); unfold Dom.classList_add, Dom.set_style; simpl;
    (destruct (bool_decide (c ∈ classList el)) eqn:E;
     [by rewrite E
     |rewrite bool_decide_eq_true_2;
      [done|apply elem_of_app; right; by apply list_elem_of_singleton]]).
Qed.

(** X4. [addLoader] shows the loading state whatever the region showed before,
    and showing it twice (two attempts under way) is the same as showing
    it once: the loader class is on the region one time only.  Neither the
    heap nor the timers are touched. *)
Theorem addLoader_idempotent (s : state) (el : element) :
  nodes_image (nodes s) = Some el →
  ∃ s1 el1,
    addLoader s = (Ok (), s1)
    ∧ addLoader s1 = (Ok (), s1)
    ∧ nodes_image (nodes s1) = Some el1
    ∧ style el1 = Some BgNone
    ∧ visualState (api s) el1 = Loading
    ∧ store s1 = store s ∧ timers s1 = timers s ∧ notifier s1 = notifier s.
Proof.
  intros E. do 2 eexists. split; [by apply addLoader_run|].
  split.
  { erewrite addLoader_run by reflexivity. simpl api.
    rewrite classList_add_again. reflexivity. }
  split; [reflexivity|]. split; [reflexivity|].
  split; [|by repeat split].
  unfold visualState. case_bool_decide as Hno; [done|].
  exfalso. apply Hno. simpl.
  destruct (bool_decide (CSS.loader (api s) ∈ classList el)) eqn:Hin.
  - by apply bool_decide_eq_true_1 in Hin.
  - apply elem_of_app. right. by apply list_elem_of_singleton.
Qed.

(** On the example block. *)
Lemma addLoader_idempotent_witness :
  ∃ s1 el1,
    addLoader Example.rendered = (Ok (), s1)
    ∧ addLoader s1 = (Ok (), s1)
    ∧ nodes_image (nodes s1) = Some el1
    ∧ classList el1 = [CSS.image; "cdx-loader"].
Proof.
  assert (∃ el, nodes_image (nodes Example.rendered) = Some el
                ∧ classList el = [CSS.image]) as (el & E & Hc)
    by (eexists; split; vm_compute; reflexivity).
  destruct (addLoader_idempotent Example.rendered el E)
    as (s1 & el1 & H1 & H2 & E1 & _).
  exists s1, el1. split; [exact H1|]. split; [exact H2|]. split; [exact E1|].
  rewrite (addLoader_run _ _ E) in H1. injection H1 as <-.
  simpl in E1. injection E1 as <-. simpl. rewrite Hc. vm_compute. reflexivity.
Defined.

(** What a timer callback does to the image element: the loader class goes,
    the background may change, nothing else does. *)
Lemma fire_image (s : state) (t : timer) (el : element) :
  nodes_image (nodes s) = Some el →
  ∃ el', nodes_image (nodes (fire s t)) = Some el'
    ∧ classList el' = filter (λ x, x ≠ CSS.loader (api s)) (classList el)
    ∧ listeners el' = listeners el
    ∧ childNodes el' = childNodes el.
Proof.
  intros E. unfold fire, catch, run_callback.
  destruct (callback t); rewrite bind_gets.
  - erewrite bind_update_image by exact E. rewrite bind_gets.
    match goal with
    | |- context [(getp ?d "image" ≫= ?k) ?s1] =>
        destruct (Js.get_prop (store s1) d "image") as [image|e] eqn:Hi;
        [rewrite (bind_getp d image "image" k s1 Hi)
        |rewrite (bind_getp_throw d e "image" k s1 Hi); simpl; by eauto 10]
    end.
    match goal with
    | |- context [(getp image "url" ≫= ?k) ?s1] =>
        destruct (Js.get_prop (store s1) image "url") as [url|e] eqn:Hu;
        [rewrite (bind_getp image url "url" k s1 Hu)
        |rewrite (bind_getp_throw image e "url" k s1 Hu); simpl; by eauto 10]
    end.
    unfold setImage. erewrite update_image_some by reflexivity.
    unfold Dom.set_background. destruct (parses _); simpl; by eauto 10.
  - erewrite bind_update_image by exact E.
    erewrite update_image_some by reflexivity. simpl. by eauto 10.
Qed.

Lemma filter_not_loader_again (c : string) (l : list string) :
  filter (λ x, x ≠ c) (filter (λ x, x ≠ c) l) = filter (λ x, x ≠ c) l.
Proof.
  induction l as [|x l IH]; [done|].
  destruct (decide (x ≠ c)) as [H|H].
  - rewrite (filter_cons_True _ x l H), (filter_cons_True _ x _ H). by rewrite IH.
  - by rewrite (filter_cons_False _ x l H).
Qed.

Lemma foldl_fire_image (l : list timer) (s : state) (el : element) :
  nodes_image (nodes s) = Some el →
  ∃ el', nodes_image (nodes (foldl fire s l)) = Some el'
    ∧ filter (λ x, x ≠ CSS.loader (api s)) (classList el')
      = filter (λ x, x ≠ CSS.loader (api s)) (classList el)
    ∧ listeners el' = listeners el
    ∧ childNodes el' = childNodes el.
Proof.
  revert s el. induction l as [|t l IH]; intros s el E; simpl; [by eauto|].
  destruct (fire_image s t el E) as (el1 & E1 & Hc1 & Hl1 & Hk1).
  destruct (IH (fire s t) el1 E1) as (el' & E' & Hc & Hl & Hk).
  destruct (fire_frame s t) as (_ & _ & Ha & _). rewrite Ha in Hc.
  exists el'. split; [exact E'|].
  rewrite Hc, Hc1, filter_not_loader_again, Hl, Hl1, Hk, Hk1. done.
Qed.

(** X5. A whole failed attempt (loader shown, error callback, delay) gives the
    image region back with the classes, listeners and children it had; only
    the inline style is gone, so the background [render] had set is not
    restored. *)
Theorem failed_attempt_restores_classes
    (s : state) (el : element) (msg : jsstring) :
  nodes_image (nodes s) = Some el →
  CSS.loader (api s) ∉ classList el →
  ∃ s1 s2,
    addLoader s = (Ok (), s1)
    ∧ uploadingFailed msg s1 = (Ok (), s2)
    ∧ ∃ el', nodes_image (nodes (advance LOADER_DELAY s2)) = Some el'
      ∧ classList el' = classList el
      ∧ listeners el' = listeners el
      ∧ childNodes el' = childNodes el
      ∧ style el' = None.
Proof.
  intros E Hn.
  do 2 eexists. split; [exact (addLoader_run s el E)|]. split; [reflexivity|].
  set (t := Build_timer (now s + LOADER_DELAY)%N StopLoadingCb).
  match goal with
  | |- context [advance _ ?s2] =>
      destruct (advance_last LOADER_DELAY s2 (timers s) t eq_refl eq_refl)
        as (s0 & before & -> & Hn0 & _ & _ & Ha0 & _)
  end.
  simpl in Hn0, Ha0.
  edestruct (foldl_fire_image before s0) as (el0 & E0 & Hc0 & Hl0 & Hk0).
  { rewrite Hn0. reflexivity. }
  destruct (foldl_fire_frame before s0) as (_ & _ & Ha' & _).
  destruct (fire_image _ t _ E0) as (el1 & E1 & Hc1 & Hl1 & Hk1).
  destruct (fire_StopLoading _ _ t E0 eq_refl) as (el2 & E2 & _ & Hst).
  rewrite E1 in E2. injection E2 as <-.
  rewrite Ha', Ha0 in Hc1. rewrite Ha0 in Hc0.
  exists el1. split; [exact E1|].
  split.
  { rewrite Hc1, Hc0. simpl.
    rewrite (bool_decide_eq_false_2 _ Hn), filter_app.
    rewrite (filter_cons_False _ (CSS.loader (api s)) []) by (intros H; by apply H).
    rewrite filter_nil, app_nil_r.
    clear -Hn. induction (classList el) as [|x l IH]; [done|].
    apply not_elem_of_cons in Hn as [Hx Hl].
    rewrite filter_cons_True by (intros ->; by apply Hx). by rewrite IH. }
  rewrite Hl1, Hl0, Hk1, Hk0. by repeat split.
Qed.

(** On the example block the image class and the click listener survive a
    failed attempt. *)
Lemma failed_attempt_restores_classes_witness :
  ∃ s1 s2,
    addLoader Example.rendered = (Ok (), s1)
    ∧ uploadingFailed (lit "Upload failed") s1 = (Ok (), s2)
    ∧ ∃ el', nodes_image (nodes (advance LOADER_DELAY s2)) = Some el'
      ∧ classList el' = [CSS.image]
      ∧ listeners el' = [("click", Arrow_selectFile)]
      ∧ style el' = None.
Proof.
  assert (∃ el, nodes_image (nodes Example.rendered) = Some el
                ∧ classList el = [CSS.image]
                ∧ listeners el = [("click", Arrow_selectFile)]) as (el & E & Hc & Hl)
    by (eexists; repeat split; vm_compute; reflexivity).
  assert (Hn : CSS.loader (api Example.rendered) ∉ classList el).
  { rewrite Hc. vm_compute. intros H.
    repeat (inversion H as [|? ? ? H']; clear H; rename H' into H). }
  destruct (failed_attempt_restores_classes Example.rendered el (lit "Upload failed") E Hn)
    as (s1 & s2 & H1 & H2 & el' & E' & Hc' & Hl' & _ & Hst).
  exists s1, s2. split; [exact H1|]. split; [exact H2|].
  exists el'. rewrite Hc', Hl'. by repeat split.
Defined.

(** ** What the callbacks leave alone *)

(** X6. Whatever response it is given, [onUpload] never notifies and never
    touches the tree itself.  Either it changes nothing at all (it returned
    without acting, or threw), or it returned after writing [image] of the
    data object and setting exactly one timer. *)
Theorem onUpload_effects (response : value) (s : state) :
  nodes (onUpload response s).2 = nodes s
  ∧ notifier (onUpload response s).2 = notifier s
  ∧ data (onUpload response s).2 = data s
  ∧ ((onUpload response s).2 = s
     ∨ ((onUpload response s).1 = Ok ()
        ∧ ∃ l file,
            data s = VRef l
            ∧ Js.truthy file = true
            ∧ store (onUpload response s).2
              = <[l := <["image" := file]> (Js.objectAt (store s) l)]> (store s)
            ∧ timers (onUpload response s).2
              = timers s ++ [Build_timer (now s + LOADER_DELAY)%N ShowFullImageCb])).
Proof.
  assert (Hsame : ∀ r : result unit * state, r.2 = s →
    nodes r.2 = nodes s ∧ notifier r.2 = notifier s ∧ data r.2 = data s
    ∧ (r.2 = s ∨ (r.1 = Ok ()
        ∧ ∃ l file, data s = VRef l ∧ Js.truthy file = true
            ∧ store r.2 = <[l := <["image" := file]> (Js.objectAt (store s) l)]> (store s)
            ∧ timers r.2
              = timers s ++ [Build_timer (now s + LOADER_DELAY)%N ShowFullImageCb]))).
  { intros r ->. by auto. }
  unfold onUpload.
  destruct (Js.get_prop (store s) response "body") as [body|e] eqn:Hb;
    [rewrite (bind_getp _ _ _ _ _ Hb)
    |rewrite (bind_getp_throw _ _ _ _ _ Hb); by apply Hsame].
  destruct (Js.get_prop (store s) body "success") as [success|e] eqn:Hs;
    [rewrite (bind_getp _ _ _ _ _ Hs)
    |rewrite (bind_getp_throw _ _ _ _ _ Hs); by apply Hsame].
  destruct (Js.get_prop (store s) body "file") as [file|e] eqn:Hf;
    [rewrite (bind_getp _ _ _ _ _ Hf)
    |rewrite (bind_getp_throw _ _ _ _ _ Hf); by apply Hsame].
  destruct (Js.truthy success && Js.truthy file) eqn:Hg; [|by apply Hsame].
  apply andb_true_iff in Hg as [_ Hfile].
  destruct (Js.get_prop (store s) file "url") as [url|e] eqn:Hu;
    [rewrite (bind_getp _ _ _ _ _ Hu)
    |rewrite (bind_getp_throw _ _ _ _ _ Hu); by apply Hsame].
  destruct (Js.truthy url); [|by apply Hsame].
  rewrite bind_gets. unfold setp, mbind, M_bind.
  clear Hsame.
  destruct (data s) as [| | | | |l] eqn:Hd; simpl; rewrite ?Hd;
    try (by repeat (split; [done|]); left).
  split; [done|]. split; [done|]. split; [done|].
  right. split; [done|]. exists l, file. by repeat split.
Qed.

(** A response without a body makes [onUpload] throw, and nothing is
    changed: the loader stays. *)
Lemma onUpload_without_body (s : state) (response : value) :
  Js.get_prop (store s) response "body" = Ok VUndefined →
  ∃ e, onUpload response s = (Throw e, s).
Proof.
  intros Hb. unfold onUpload. rewrite (bind_getp _ _ _ _ _ Hb).
  eexists. reflexivity.
Qed.

(** ** Before [render] *)

(** X7. On an instance that has not been rendered every method that goes
    through [this.nodes] throws a TypeError and leaves the state as it was:
    [save], [addLoader], [setImage], [setImagePlaceholder] and both timer
    callbacks. *)
Theorem methods_throw_before_render (s : state) (url : value) (cb : timer_callback) :
  nodes s = no_nodes →
  let e := TypeError "Cannot read properties of null" in
  save s = (Throw e, s)
  ∧ addLoader s = (Throw e, s)
  ∧ setImage url s = (Throw e, s)
  ∧ setImagePlaceholder s = (Throw e, s)
  ∧ run_callback cb s = (Throw e, s).
Proof.
  intros Hn e.
  assert (Hu : ∀ f, update_image f s = (Throw e, s)).
  { intros f. unfold update_image. unfold_monad. by rewrite Hn. }
  split. { unfold save. unfold_monad. by rewrite Hn. }
  split. { unfold addLoader. by rewrite (bind_throw _ _ _ _ _ (Hu _)). }
  split; [apply Hu|]. split; [apply Hu|].
  destruct cb; unfold run_callback; rewrite bind_gets;
    by rewrite (bind_throw _ _ _ _ _ (Hu _)).
Qed.

(** The instance right after construction. *)
Lemma methods_throw_before_render_witness :
  save Example.constructed
  = (Throw (TypeError "Cannot read properties of null"), Example.constructed)
  ∧ addLoader Example.constructed
    = (Throw (TypeError "Cannot read properties of null"), Example.constructed).
Proof.
  destruct (methods_throw_before_render Example.constructed VUndefined StopLoadingCb eq_refl)
    as (H1 & H2 & _).
  split; [exact H1|exact H2].
Defined.

(** ** Clicks *)

(** X8. A click on the image region itself calls [uploadSelectedFile] once and
    does nothing else: no loader yet, no request, no timer; the data is as
    it was. *)
Theorem image_click_prompts_once (s : state) (el w : element) :
  nodes_image (nodes s) = Some el →
  listeners el = [("click", Arrow_selectFile)] →
  nodes_wrapper (nodes s) = Some w →
  listeners w = [] →
  click Image s = set_prompts (S (prompts s)) s.
Proof.
  intros E Hl Hw Hlw.
  unfold click, dispatchEvent. simpl propagation_path.
  unfold propagate. simpl element_at. rewrite E.
  rewrite (handlers_for_single (Build_Event "click" "") _ _ Hl).
  cbn [foldl existsb stops_propagation orb]. unfold catch at 1, invoke.
  unfold Uploader.uploadSelectedFile, modify.
  cbn [element_at nodes set_prompts]. rewrite Hw.
  unfold handlers_for. rewrite Hlw. reflexivity.
Qed.

(** On the example block. *)
Lemma image_click_prompts_once_witness :
  click Image Example.rendered = set_prompts 1 Example.rendered.
Proof.
  assert (∃ el, nodes_image (nodes Example.rendered) = Some el
                ∧ listeners el = [("click", Arrow_selectFile)]) as (el & E & Hl)
    by (eexists; split; vm_compute; reflexivity).
  assert (∃ w, nodes_wrapper (nodes Example.rendered) = Some w
               ∧ listeners w = []) as (w & Hw & Hlw)
    by (eexists; split; vm_compute; reflexivity).
  exact (image_click_prompts_once Example.rendered el w E Hl Hw Hlw).
Defined.

(** X9. A second click on the delete control changes nothing more. *)
Theorem delete_click_idempotent (s : state) (button el : element) (l : loc) :
  deleteImageButton s = Some button →
  listeners button = [("click", Arrow_deleteImage)] →
  nodes_image (nodes s) = Some el →
  data s = VRef l →
  click DeleteImageButton (click DeleteImageButton s) = click DeleteImageButton s.
Proof.
  intros Hb Hl E Hd.
  rewrite (delete_click_run s button el l Hb Hl E Hd).
  erewrite delete_click_run; [|exact Hb|exact Hl|reflexivity|exact Hd].
  simpl. rewrite objectAt_insert_eq, !insert_insert_eq. reflexivity.
Qed.

(** On the example block. *)
Lemma delete_click_idempotent_witness :
  click DeleteImageButton (click DeleteImageButton Example.rendered)
  = click DeleteImageButton Example.rendered.
Proof.
  assert (∃ b, deleteImageButton Example.rendered = Some b
               ∧ listeners b = [("click", Arrow_deleteImage)]) as (b & Hb & Hl)
    by (eexists; split; vm_compute; reflexivity).
  assert (∃ el, nodes_image (nodes Example.rendered) = Some el) as (el & E)
    by (eexists; vm_compute; reflexivity).
  assert (Hd : data Example.rendered = VRef 1) by (vm_compute; reflexivity).
  exact (delete_click_idempotent Example.rendered b el 1 Hb Hl E Hd).
Defined.

(** ** What [save] returns *)

Lemma trimStart_head (s r : jsstring) (c : N) :
  JsString.trimStart s = c :: r → JsString.is_whitespace c = false.
Proof.
  induction s as [|x s IH]; simpl; [discriminate|].
  destruct (JsString.is_whitespace x) eqn:E; [exact IH|].
  intros [= <- _]. exact E.
Qed.

Lemma trimStart_suffix (s : jsstring) : ∃ pre, s = pre ++ JsString.trimStart s.
Proof.
  induction s as [|x s [pre IH]]; simpl; [by exists []|].
  destruct (JsString.is_whitespace x).
  - exists (x :: pre). simpl. by rewrite <- IH.
  - by exists [].
Qed.

Lemma trimStart_fixed (s : jsstring) :
  (∀ c, head s = Some c → JsString.is_whitespace c = false) →
  JsString.trimStart s = s.
Proof. destruct s as [|x s]; simpl; [done|]. intros H. by rewrite (H x eq_refl). Qed.

Lemma trim_head (s : jsstring) (c : N) :
  head (JsString.trim s) = Some c → JsString.is_whitespace c = false.
Proof.
  unfold JsString.trim, JsString.trimEnd.
  destruct (trimStart_suffix (rev (JsString.trimStart s))) as [pre Hpre].
  destruct (rev (JsString.trimStart (rev (JsString.trimStart s)))) as [|x r] eqn:Hr;
    [discriminate|].
  intros [= ->].
  apply (f_equal (@rev N)) in Hr. rewrite rev_involutive in Hr. simpl in Hr.
  rewrite Hr in Hpre. apply (f_equal (@rev N)) in Hpre.
  rewrite rev_involutive, !rev_app_distr in Hpre. simpl in Hpre.
  by apply trimStart_head in Hpre.
Qed.

Lemma trim_last (s : jsstring) (c : N) :
  last (JsString.trim s) = Some c → JsString.is_whitespace c = false.
Proof.
  unfold JsString.trim, JsString.trimEnd.
  intros [l' Hl]%last_Some.
  apply (f_equal (@rev N)) in Hl.
  rewrite rev_involutive, rev_app_distr in Hl. simpl in Hl.
  by apply trimStart_head in Hl.
Qed.

Lemma trim_idempotent (s : jsstring) : JsString.trim (JsString.trim s) = JsString.trim s.
Proof.
  set (x := JsString.trim s).
  unfold JsString.trim at 1, JsString.trimEnd.
  rewrite (trimStart_fixed x) by (apply trim_head).
  rewrite trimStart_fixed; [apply rev_involutive|].
  intros c Hc. apply (trim_last s).
  fold x. destruct (rev x) as [|y r] eqn:Hr; [discriminate|].
  injection Hc as ->. apply last_Some. exists (rev r).
  apply (f_equal (@rev N)) in Hr. by rewrite rev_involutive in Hr.
Qed.

Lemma assigned_lookup (h : heap) (l : loc) (text title description : jsstring) :
  Js.objectAt (assigned h l text title description) l !! "text" = Some (VStr text)
  ∧ Js.objectAt (assigned h l text title description) l !! "title" = Some (VStr title)
  ∧ Js.objectAt (assigned h l text title description) l !! "description"
    = Some (VStr description).
Proof.
  unfold assigned. rewrite objectAt_insert_eq.
  rewrite lookup_insert_eq.
  rewrite (lookup_insert_ne _ "description" "title") by done.
  rewrite (lookup_insert_ne _ "description" "text") by done.
  rewrite lookup_insert_eq.
  rewrite (lookup_insert_ne _ "title" "text") by done.
  by rewrite lookup_insert_eq.
Qed.

Lemma assigned_again (h : heap) (l : loc) (text title description : jsstring) :
  assigned (assigned h l text title description) l text title description
  = assigned h l text title description.
Proof.
  unfold assigned at 1.
  destruct (assigned_lookup h l text title description) as (Ht & Hti & Hde).
  rewrite (insert_id _ "text" _ Ht).
  rewrite (insert_id _ "title" _ Hti).
  rewrite (insert_id _ "description" _ Hde).
  unfold assigned. by rewrite objectAt_insert_eq, insert_insert_eq.
Qed.

Lemma save_cases (s : state) :
  (save s).2 = s
  ∨ ∃ t ti de l,
      nodes_text (nodes s) = Some t ∧ nodes_title (nodes s) = Some ti
      ∧ nodes_description (nodes s) = Some de ∧ data s = VRef l.
Proof.
  destruct (nodes_text (nodes s)) as [t|] eqn:Ht;
    [|left; unfold save; unfold_monad; by rewrite Ht].
  destruct (nodes_title (nodes s)) as [ti|] eqn:Hti;
    [|left; unfold save; unfold_monad; by rewrite Ht, Hti].
  destruct (nodes_description (nodes s)) as [de|] eqn:Hde;
    [|left; unfold save; unfold_monad; by rewrite Ht, Hti, Hde].
  destruct (data s) as [| | | | |l] eqn:Hd;
    try (left; unfold save; unfold_monad; rewrite Ht, Hti, Hde; simpl;
         by rewrite Hd).
  right. by exists t, ti, de, l.
Qed.

(** X10. Saving twice is saving once: the second call returns what the first
    returned (or throws as the first did) and leaves the state the first
    left. *)
Theorem save_idempotent (s : state) : save (save s).2 = save s.
Proof.
  destruct (save_cases s) as [->|(t & ti & de & l & Ht & Hti & Hde & Hd)]; [done|].
  rewrite (save_rendered s t ti de l Ht Hti Hde Hd). simpl.
  erewrite save_rendered; [|exact Ht|exact Hti|exact Hde|exact Hd].
  simpl. by rewrite assigned_again.
Qed.

(** X11. The three strings [save] writes have no white space at either end. *)
Theorem saved_strings_are_trimmed (s : state) (t ti de : element) (l : loc) :
  nodes_text (nodes s) = Some t →
  nodes_title (nodes s) = Some ti →
  nodes_description (nodes s) = Some de →
  data s = VRef l →
  ∀ k, k ∈ ["text"; "title"; "description"] →
    ∃ x, Js.get_prop (store (save s).2) (VRef l) k = Ok (VStr x)
      ∧ (∀ c, head x = Some c → JsString.is_whitespace c = false)
      ∧ (∀ c, last x = Some c → JsString.is_whitespace c = false).
Proof.
  intros Ht Hti Hde Hd k Hk.
  rewrite (save_rendered s t ti de l Ht Hti Hde Hd). simpl.
  destruct (assigned_lookup (store s) l (JsString.trim (Dom.innerHTML t))
              (JsString.trim (Dom.textContent ti))
              (JsString.trim (Dom.textContent de))) as (H1 & H2 & H3).
  repeat (apply elem_of_cons in Hk as [->|Hk];
          [eexists; split; [by apply get_prop_lookup|];
           split; [apply trim_head|apply trim_last]|]).
  by apply elem_of_nil in Hk.
Qed.

(** On the typed-into block the saved title is [A title]. *)
Lemma saved_strings_are_trimmed_witness :
  ∃ x, Js.get_prop (store (save Example.typed).2) (VRef 1) "title" = Ok (VStr x)
    ∧ (∀ c, head x = Some c → JsString.is_whitespace c = false)
    ∧ x = lit "A title".
Proof.
  assert (∃ t, nodes_text (nodes Example.typed) = Some t) as [t Ht]
    by (eexists; vm_compute; reflexivity).
  assert (∃ t, nodes_title (nodes Example.typed) = Some t) as [ti Hti]
    by (eexists; vm_compute; reflexivity).
  assert (∃ t, nodes_description (nodes Example.typed) = Some t) as [de Hde]
    by (eexists; vm_compute; reflexivity).
  assert (Hd : data Example.typed = VRef 1) by (vm_compute; reflexivity).
  destruct (saved_strings_are_trimmed Example.typed t ti de 1 Ht Hti Hde Hd "title")
    as (x & Hx & Hh & _); [repeat constructor|].
  exists x. split; [exact Hx|]. split; [exact Hh|].
  vm_compute in Hx. by injection Hx as <-.
Defined.

(** X12. What [save] returns always passes through [validate] without a throw,
    and is valid exactly when the markup of the text region has a character
    that is not white space. *)
Theorem validate_after_save (s : state) (t ti de : element) (l : loc) :
  nodes_text (nodes s) = Some t →
  nodes_title (nodes s) = Some ti →
  nodes_description (nodes s) = Some de →
  data s = VRef l →
  ∃ b : bool,
    validate (store (save s).2) (VRef l) = Ok b
    ∧ (save s).1 = Ok (VRef l)
    ∧ (b = true ↔ ∃ c, c ∈ Dom.innerHTML t ∧ JsString.is_whitespace c = false).
Proof.
  intros Ht Hti Hde Hd.
  rewrite (save_rendered s t ti de l Ht Hti Hde Hd). simpl.
  destruct (assigned_lookup (store s) l (JsString.trim (Dom.innerHTML t))
              (JsString.trim (Dom.textContent ti))
              (JsString.trim (Dom.textContent de))) as (H1 & _).
  eexists. split.
  { unfold validate. rewrite (get_prop_lookup _ _ _ _ H1). reflexivity. }
  split; [done|].
  rewrite trim_idempotent, negb_true_iff, <- not_true_iff_false.
  rewrite TrimFacts.is_empty_nil, TrimFacts.trim_nil, not_true_iff_false.
  apply TrimFacts.not_blank_iff.
Qed.

(** The typed-into block is valid once saved. *)
Lemma validate_after_save_witness :
  ∃ b : bool, validate (store (save Example.typed).2) (VRef 1) = Ok b ∧ b = true.
Proof.
  assert (∃ t, nodes_text (nodes Example.typed) = Some t
               ∧ ∃ c, c ∈ Dom.innerHTML t ∧ JsString.is_whitespace c = false)
    as (t & Ht & Hc).
  { eexists. split; [vm_compute; reflexivity|].
    exists 72%N. split; [|reflexivity]. vm_compute. right. left. }
  assert (∃ t, nodes_title (nodes Example.typed) = Some t) as [ti Hti]
    by (eexists; vm_compute; reflexivity).
  assert (∃ t, nodes_description (nodes Example.typed) = Some t) as [de Hde]
    by (eexists; vm_compute; reflexivity).
  assert (Hd : data Example.typed = VRef 1) by (vm_compute; reflexivity).
  destruct (validate_after_save Example.typed t ti de 1 Ht Hti Hde Hd)
    as (b & Hv & _ & Hb).
  exists b. split; [exact Hv|]. by apply Hb.
Defined.

(** ** [render], from what was saved *)

(** What [render] leaves in the three editable regions, and what it
    leaves alone, on any data whose four properties can be read. *)
Lemma render_regions (parse : jsstring → list markup) (s : state)
    (text image title description : value) :
  Js.get_prop (store s) (data s) "text" = Ok text →
  Js.get_prop (store s) (data s) "image" = Ok image →
  Js.get_prop (store s) (data s) "title" = Ok title →
  Js.get_prop (store s) (data s) "description" = Ok description →
  ∃ w s', render parse s = (Ok w, s')
    ∧ (∃ t, nodes_text (nodes s') = Some t
         ∧ (Js.truthy text = false → childNodes t = [])
         ∧ placeholder t = Some (Js.to_string (textPlaceholder (config s)))
         ∧ contentEditable t = true)
    ∧ (∃ ti, nodes_title (nodes s') = Some ti
         ∧ Dom.textContent ti = (if Js.truthy title then Js.to_string title else [])
         ∧ placeholder ti = Some (Js.to_string (titlePlaceholder (config s))))
    ∧ (∃ de, nodes_description (nodes s') = Some de
         ∧ Dom.textContent de
           = (if Js.truthy description then Js.to_string description else [])
         ∧ placeholder de = Some (Js.to_string (descriptionPlaceholder (config s))))
    ∧ store s' = store s ∧ data s' = data s ∧ config s' = config s
    ∧ timers s' = timers s ∧ notifier s' = notifier s ∧ now s' = now s
    ∧ prompts s' = prompts s ∧ requests s' = requests s
    ∧ uncaught s' = uncaught s.
Proof.
  intros Hte Him Hti Hde. unfold render.
  rewrite bind_gets.
  rewrite (bind_getp _ _ _ _ _ Hte), (bind_getp _ _ _ _ _ Him),
    (bind_getp _ _ _ _ _ Hti), (bind_getp _ _ _ _ _ Hde).
  render_steps.
  match goal with
  | |- context [(?m ≫= ?k) ?s0] =>
      rewrite (bind_ok m k s0 _ _ (render_image_branch s0 _ image eq_refl))
  end.
  render_steps.
  erewrite bind_update_image by reflexivity.
  render_steps.
  do 2 eexists. split; [reflexivity|].
  split.
  { eexists. split; [reflexivity|]. split; [|split; reflexivity].
    intros Hf. cbn. unfold set_innerHTML, Js.or. rewrite Hf. reflexivity. }
  split.
  { eexists. split; [reflexivity|]. split; [|by destruct (Js.truthy title)].
    destruct (Js.truthy title); [|reflexivity].
    unfold Dom.textContent, Dom.set_textContent. cbn.
    destruct (Js.to_string title); [reflexivity|]. cbn. by rewrite app_nil_r. }
  split.
  { eexists. split; [reflexivity|]. split; [|by destruct (Js.truthy description)].
    destruct (Js.truthy description); [|reflexivity].
    unfold Dom.textContent, Dom.set_textContent. cbn.
    destruct (Js.to_string description); [reflexivity|]. cbn. by rewrite app_nil_r. }
  repeat (split; [reflexivity|]). reflexivity.
Qed.




(** X14. [render] only builds the tree: whatever the data, it writes nothing to
    the heap, sets no timer, raises no notification, opens no prompt; and on
    data that is [undefined] or [null] it throws before it has created
    anything. *)
Theorem render_writes_no_data (parse : jsstring → list markup) (s : state) :
  store (render parse s).2 = store s
  ∧ data (render parse s).2 = data s
  ∧ timers (render parse s).2 = timers s
  ∧ notifier (render parse s).2 = notifier s
  ∧ prompts (render parse s).2 = prompts s
  ∧ requests (render parse s).2 = requests s
  ∧ (data s = VUndefined ∨ data s = VNull →
     is_ok (render parse s).1 = false ∧ (render parse s).2 = s).
Proof.
  destruct (Js.get_prop (store s) (data s) "text") as [text|e] eqn:Hte.
  - assert (Hall : ∀ k, ∃ v, Js.get_prop (store s) (data s) k = Ok v).
    { intros k. destruct (data s); try discriminate; simpl; eauto. }
    destruct (Hall "image") as [image Him], (Hall "title") as [title Hti],
      (Hall "description") as [description Hde].
    destruct (render_regions parse s _ _ _ _ Hte Him Hti Hde)
      as (w & s' & -> & _ & _ & _ & Hs & Hd & _ & Ht & Hn & _ & Hp & Hr & _).
    simpl. repeat (split; [done|]).
    intros [H|H]; rewrite H in Hte; discriminate.
  - unfold render. rewrite bind_gets, (bind_getp_throw _ _ _ _ _ Hte). simpl.
    repeat (split; [done|]). done.
Qed.

(** ** [make] *)

Lemma set_attribute_classList (parse : jsstring → list markup)
    (attributes : list attribute) (el : element) :
  classList (foldl (λ el a, set_attribute parse a el) el attributes) = classList el.
Proof.
  revert el. induction attributes as [|a l IH]; intros el; simpl; [done|].
  rewrite IH. by destruct a.
Qed.

Lemma classList_add_each (l : list string) (el : element) :
  NoDup (classList el) →
  NoDup (classList (foldl (λ el c, Dom.classList_add c el) el l))
  ∧ ∀ c, c ∈ classList (foldl (λ el c, Dom.classList_add c el) el l)
         ↔ c ∈ classList el ∨ c ∈ l.
Proof.
  revert el. induction l as [|x l IH]; intros el Hnd; simpl.
  - split; [done|]. intros c. rewrite elem_of_nil. tauto.
  - destruct (IH (Dom.classList_add x el)) as [Hnd' Hin].
    { simpl. case_bool_decide as Hx; [done|].
      apply NoDup_app. split; [done|]. split; [|apply NoDup_singleton].
      intros y Hy ->%list_elem_of_singleton. by apply Hx. }
    split; [exact Hnd'|]. intros c. rewrite Hin. simpl.
    rewrite elem_of_cons.
    case_bool_decide as Hx.
    + split; [tauto|]. intros [H|[->|H]]; auto.
    + rewrite elem_of_app, list_elem_of_singleton. tauto.
Qed.

Lemma check_tokens_valid (l : list string) :
  Forall (λ c, valid_token c = true) l → Dom.check_tokens l = Ok ().
Proof.
  induction 1 as [|c l Hc _ IH]; simpl; [done|].
  by rewrite (check_token_valid c Hc).
Qed.

Lemma check_token_invalid (c : string) :
  valid_token c = false → is_ok (Dom.check_token c) = false.
Proof.
  destruct c as [|a r]; [done|]. unfold valid_token, Dom.check_token.
  by destruct (has_whitespace (String a r)).
Qed.

Lemma check_tokens_invalid (l : list string) (c : string) :
  c ∈ l → valid_token c = false → is_ok (Dom.check_tokens l) = false.
Proof.
  intros Hin Hc. induction l as [|x l IH]; [by apply elem_of_nil in Hin|].
  simpl. apply elem_of_cons in Hin as [<-|Hin].
  - pose proof (check_token_invalid c Hc) as H.
    by destruct (Dom.check_token c).
  - destruct (Dom.check_token x); [by apply IH|done].
Qed.

(** X15. [make] on one of the two tags [render] creates, with the
    [contentEditable] and [innerHTML] attributes [render] passes.  An array
    of valid class tokens gives an element that carries each of them once,
    in whatever number it was given, and no other class; an array with an
    empty string or a token with white space in it makes [make] throw.  A
    single valid name gives that one class, the empty name no class at all,
    and a name with white space makes [make] throw.  The attributes do not
    change the classes. *)
Theorem make_classes (parse : jsstring → list markup) (tagName : string)
    (attributes : list attribute) :
  tagName = "div" ∨ tagName = "button" →
  (∀ l, Forall (λ c, valid_token c = true) l →
        ∃ el, make parse tagName (ClassArray l) attributes = Ok el
          ∧ NoDup (classList el)
          ∧ ∀ c, c ∈ classList el ↔ c ∈ l)
  ∧ (∀ l c, c ∈ l → valid_token c = false →
            is_ok (make parse tagName (ClassArray l) attributes) = false)
  ∧ (∀ c, valid_token c = true →
          ∃ el, make parse tagName (ClassName c) attributes = Ok el
            ∧ classList el = [c])
  ∧ (∃ el, make parse tagName (ClassName "") attributes = Ok el
       ∧ classList el = [])
  ∧ (∀ c, c ≠ "" → valid_token c = false →
          is_ok (make parse tagName (ClassName c) attributes) = false).
Proof.
  intros _. split; [|split; [|split; [|split]]].
  - intros l Hl. rewrite (make_array _ _ _ _ (check_tokens_valid l Hl)).
    eexists. split; [reflexivity|]. rewrite set_attribute_classList.
    destruct (classList_add_each l (Dom.createElement tagName)) as [Hnd Hin];
      [apply NoDup_nil_2|].
    split; [exact Hnd|]. intros c. rewrite Hin. simpl. rewrite elem_of_nil. tauto.
  - intros l c Hin Hc. unfold make, Dom.classList_add_all.
    pose proof (check_tokens_invalid l c Hin Hc) as H.
    by destruct (Dom.check_tokens l).
  - intros c Hc. rewrite (make_name _ _ _ _ Hc).
    eexists. split; [reflexivity|]. by rewrite set_attribute_classList.
  - eexists. split; [reflexivity|]. by rewrite set_attribute_classList.
  - intros c Hne Hc. unfold make, Dom.classList_add_all.
    rewrite bool_decide_eq_false_2 by exact Hne.
    pose proof (check_tokens_invalid [c] c (list_elem_of_here _ _) Hc) as H.
    by destruct (Dom.check_tokens [c]).
Qed.

(** The wrapper of the block, and two calls that throw. *)
Lemma make_classes_witness :
  (∃ el, make Example.plain_text "div"
           (ClassArray ["cdx-block"; CSS.wrapper; "cdx-block"]) [] = Ok el
     ∧ ∀ c, c ∈ classList el ↔ c ∈ ["cdx-block"; CSS.wrapper; "cdx-block"])
  ∧ make Example.plain_text "div" (ClassArray ["a"; ""]) []
    = Throw (SyntaxError "The token provided must not be empty")
  ∧ make Example.plain_text "div" (ClassName "a b") []
    = Throw (InvalidCharacterError "The token provided contains white space").
Proof.
  split; [|split; reflexivity].
  destruct (make_classes Example.plain_text "div" [] (or_introl eq_refl))
    as (H & _).
  destruct (H ["cdx-block"; CSS.wrapper; "cdx-block"]) as (el & Hm & _ & Hin).
  { repeat constructor. }
  exists el. split; [exact Hm|exact Hin].
Defined.

(** ** [validate] and the constructor on what they do not expect *)

(** X16. [validate] throws on every record whose [text] is not a string: the
    empty data of a new block, and [undefined] itself. *)
Theorem validate_throws_without_string_text (h : heap) (savedData : value) :
  (∀ s, Js.get_prop h savedData "text" ≠ Ok (VStr s)) →
  is_ok (validate h savedData) = false.
Proof.
  intros H. unfold validate.
  destruct (Js.get_prop h savedData "text") as [[| | | |s|]|e] eqn:E; try done.
  by destruct (H s).
Qed.

(** The data [{}] of a new block. *)
Lemma validate_throws_without_string_text_witness :
  is_ok (validate Example.empty_objects (VRef 1)) = false.
Proof.
  apply validate_throws_without_string_text.
  intros s. vm_compute. discriminate.
Defined.

(** X17. The constructor throws exactly when the configuration is [undefined] or
    [null]; any other value, a primitive included, gives an instance. *)
Theorem constructor_throws_iff (h : heap) (saved config : value) (api : API) :
  is_ok (constructor h saved config api) = false
  ↔ config = VUndefined ∨ config = VNull.
Proof.
  destruct config as [| |b|n|x|lc]; simpl.
  - split; [by left|done].
  - split; [by right|done].
  - split; [done|intros [|]; discriminate].
  - split; [done|intros [|]; discriminate].
  - split; [done|intros [|]; discriminate].
  - unfold constructor. rewrite !config_or_ref. simpl.
    destruct (config_or_object_ref h lc "additionalRequestData")
      as (v1 & h1 & -> & _). simpl.
    destruct (config_or_object_ref h1 lc "additionalRequestHeaders")
      as (v2 & h2 & -> & _). simpl.
    split; [done|intros [|]; discriminate].
Qed.

(** ** Deleting during the delay *)

Lemma advance_single (dt : N) (s : state) (u : timer) :
  timers s = [u] →
  due u = (now s + dt)%N →
  advance dt s = fire (set_now (now s + dt) (set_timers [] s)) u.
Proof.
  intros Ht Hu. unfold advance. rewrite Ht.
  rewrite (filter_cons_True (λ x, (due x ≤ now s + dt)%N) u) by (simpl; lia).
  rewrite (filter_cons_False (λ x, ¬ (due x ≤ now s + dt)%N) u)
    by (simpl; intros H; apply H; lia).
  rewrite !filter_nil. reflexivity.
Qed.

(** The success timer when [this.data.image] cannot be read for its [url]:
    the loader class is already gone when the callback throws. *)
Lemma fire_ShowFullImage_throws
    (s : state) (el : element) (t : timer) (image : value) (e : error) :
  nodes_image (nodes s) = Some el →
  callback t = ShowFullImageCb →
  Js.get_prop (store s) (data s) "image" = Ok image →
  Js.get_prop (store s) image "url" = Throw e →
  fire s t
  = set_uncaught (uncaught s ++ [e])
      (set_nodes (with_image
         (Some (Dom.classList_remove (CSS.loader (api s)) el))) s).
Proof.
  intros E Hc Hi Hu. unfold fire, catch, run_callback. rewrite Hc, bind_gets.
  erewrite bind_update_image by exact E.
  rewrite bind_gets. erewrite bind_getp by exact Hi.
  erewrite bind_getp_throw by exact Hu. reflexivity.
Qed.

(** X18. The image is deleted while the loader of a successful upload is still
    shown (no other attempt pending): when the delay has passed the timer
    callback removes the loader class and then throws at
    [this.data.image.url], the exception going uncaught.  The region is left
    with the placeholder and [this.data.image] stays [null]: the upload is
    lost. *)
Theorem delete_during_delay
    (s : state) (button el : element) (ld r b f : loc) (u : jsstring) :
  nodes_image (nodes s) = Some el →
  deleteImageButton s = Some button →
  listeners button = [("click", Arrow_deleteImage)] →
  data s = VRef ld →
  timers s = [] →
  Js.objectAt (store s) r !! "body" = Some (VRef b) →
  Js.objectAt (store s) b !! "success" = Some (VNum Js.one) →
  Js.objectAt (store s) b !! "file" = Some (VRef f) →
  Js.objectAt (store s) f !! "url" = Some (VStr u) →
  u ≠ [] →
  ∃ s1, onUpload (VRef r) s = (Ok (), s1)
    ∧ ∃ el',
        nodes_image (nodes (advance LOADER_DELAY (click DeleteImageButton s1))) = Some el'
        ∧ (CSS.loader (api s) ∉ classList el')
        ∧ style el' = Some BgPlaceholder
        ∧ Js.get_prop (store (advance LOADER_DELAY (click DeleteImageButton s1)))
            (VRef ld) "image" = Ok VNull
        ∧ uncaught (advance LOADER_DELAY (click DeleteImageButton s1))
          = uncaught s ++ [TypeError "Cannot read properties of null"].
Proof.
  intros E Hbt Hl Hd Ht Hb Hs Hf Hu Hne.
  apply get_prop_lookup in Hb, Hs, Hf, Hu.
  assert (Htr : Js.truthy (VStr u) = true) by (by destruct u).
  unfold onUpload.
  rewrite (bind_getp _ _ _ _ _ Hb), (bind_getp _ _ _ _ _ Hs), (bind_getp _ _ _ _ _ Hf).
  simpl (Js.truthy (VNum Js.one) && Js.truthy (VRef f)). cbv iota.
  rewrite (bind_getp _ _ _ _ _ Hu), Htr, bind_gets, Hd.
  eexists. split; [reflexivity|].
  erewrite delete_click_run; [|exact Hbt|exact Hl|exact E|exact Hd].
  cbn [store set_store fst snd].
  set (h2 := <[ld := <["image" := VNull]> _]> _).
  erewrite advance_single; [|cbn; rewrite Ht; reflexivity|reflexivity].
  erewrite (fire_ShowFullImage_throws _ _ _ VNull);
    [|reflexivity|reflexivity| |reflexivity].
  2:{ cbn. rewrite Hd. apply get_prop_lookup. unfold h2.
      rewrite objectAt_insert_eq. apply lookup_insert_eq. }
  eexists. split; [reflexivity|]. cbn.
  split; [intros [H _]%list_elem_of_filter; by apply H|].
  split; [reflexivity|].
  split; [|reflexivity].
  fold h2. apply get_prop_lookup. unfold h2.
  rewrite objectAt_insert_eq. apply lookup_insert_eq.
Qed.

(** On the example block: accepted upload, delete, delay. *)
Lemma delete_during_delay_witness :
  ∃ s1, onUpload (VRef 10) (Example.answered_with Example.accepted Example.loading)
        = (Ok (), s1)
    ∧ ∃ el',
        nodes_image (nodes (advance LOADER_DELAY (click DeleteImageButton s1))) = Some el'
        ∧ style el' = Some BgPlaceholder
        ∧ uncaught (advance LOADER_DELAY (click DeleteImageButton s1))
          = [TypeError "Cannot read properties of null"].
Proof.
  set (s := Example.answered_with Example.accepted Example.loading).
  assert (∃ el, nodes_image (nodes s) = Some el) as [el E]
    by (eexists; vm_compute; reflexivity).
  assert (∃ bt, deleteImageButton s = Some bt
                ∧ listeners bt = [("click", Arrow_deleteImage)]) as (bt & Hbt & Hl)
    by (eexists; split; vm_compute; reflexivity).
  assert (Hne : lit "https://x/y.png" ≠ []) by (vm_compute; discriminate).
  assert (Hd : data s = VRef 1) by (vm_compute; reflexivity).
  assert (Ht : timers s = []) by (vm_compute; reflexivity).
  assert (H10 : Js.objectAt (store s) 10 !! "body" = Some (VRef 11))
    by (vm_compute; reflexivity).
  assert (H11 : Js.objectAt (store s) 11 !! "success" = Some (VNum Js.one))
    by (vm_compute; reflexivity).
  assert (H11' : Js.objectAt (store s) 11 !! "file" = Some (VRef 12))
    by (vm_compute; reflexivity).
  assert (H12 : Js.objectAt (store s) 12 !! "url" = Some (VStr (lit "https://x/y.png")))
    by (vm_compute; reflexivity).
  destruct (delete_during_delay s bt el 1 10 11 12 (lit "https://x/y.png")
              E Hbt Hl Hd Ht H10 H11 H11' H12 Hne)
    as (s1 & H1 & el' & E' & _ & Hst & _ & Hun).
  exists s1. split; [exact H1|]. exists el'.
  split; [exact E'|]. split; [exact Hst|]. exact Hun.
Defined.
